(** * bibt.gcp.scc: path-based value extraction and parent resolution

    A shallow embedding of [get_value] / [_get] (scc.py) and of
    [FindingParentInfo] (classes.py), with the Python values they inspect. *)

From Stdlib Require Import String Ascii List ZArith Bool Arith Lia.
From Equations Require Import Equations.
Import ListNotations.
Local Open Scope string_scope.

(** ** Exceptions and results *)

(** The Python exceptions that the modelled code raises or lets through.
    [OtherError] stands for any exception raised by a collaborator (the
    Security Command Center client, the inflection package, the JSON decoder). *)
Inductive exn : Type :=
| AttributeError
| KeyError
| IndexError
| TypeError
| ValueError
| UnboundLocalError
| OtherError (name : string).

Inductive result (A : Type) : Type :=
| Normal (v : A)
| Raise (e : exn).
Arguments Normal {A} v.
Arguments Raise {A} e.

Definition bind {A B : Type} (r : result A) (k : A -> result B) : result B :=
  match r with
  | Normal v => k v
  | Raise e => Raise e
  end.

Notation "x <- e ;; k" := (bind e (fun x => k))
  (at level 61, e at next level, right associativity).

(** A list comprehension whose body may raise: the first exception ends it. *)
Fixpoint mapM {A B : Type} (f : A -> result B) (l : list A) : result (list B) :=
  match l with
  | [] => Normal []
  | x :: tl => y <- f x ;; ys <- mapM f tl ;; Normal (y :: ys)
  end.

Definition exn_eqb (a b : exn) : bool :=
  match a, b with
  | AttributeError, AttributeError => true
  | KeyError, KeyError => true
  | IndexError, IndexError => true
  | TypeError, TypeError => true
  | ValueError, ValueError => true
  | UnboundLocalError, UnboundLocalError => true
  | OtherError x, OtherError y => String.eqb x y
  | _, _ => false
  end.

(** [try: body  except <caught>: handler]. *)
Definition try_except {A : Type} (body : result A) (caught : list exn)
    (handler : result A) : result A :=
  match body with
  | Normal v => Normal v
  | Raise e => if existsb (exn_eqb e) caught then handler else Raise e
  end.

(** ** Python values *)

(** The data the resolvers walk over.  [VDict] is a mapping with string keys
    in insertion order; [VObj] is an object seen through its attribute table
    (a protocol-buffer message, a plain class instance); [VMethod] is a bound
    method of a built-in type, which is what [getattr] gives for a name such
    as [keys] on a dict. *)
#[warnings="-register-all"]
Inductive value : Type :=
| VNone
| VInt (n : Z)
| VStr (s : string)
| VList (items : list value)
| VDict (entries : list (string * value))
| VObj (attrs : list (string * value))
| VMethod (self : value) (name : string).

Fixpoint assoc {A : Type} (k : string) (l : list (string * A)) : option A :=
  match l with
  | [] => None
  | (k', v) :: tl => if String.eqb k k' then Some v else assoc k tl
  end.

Definition mem_string (s : string) (l : list string) : bool :=
  existsb (String.eqb s) l.

(** Public attribute names of the built-in types (special names of the form
    [__x__] are not modelled: a path segment names a data field). *)
Definition dict_methods : list string :=
  ["clear"; "copy"; "fromkeys"; "get"; "items"; "keys"; "pop"; "popitem";
   "setdefault"; "update"; "values"].

Definition list_methods : list string :=
  ["append"; "clear"; "copy"; "count"; "extend"; "index"; "insert"; "pop";
   "remove"; "reverse"; "sort"].

Definition str_methods : list string :=
  ["capitalize"; "casefold"; "center"; "count"; "encode"; "endswith";
   "expandtabs"; "find"; "format"; "format_map"; "index"; "isalnum";
   "isalpha"; "isascii"; "isdecimal"; "isdigit"; "isidentifier"; "islower";
   "isnumeric"; "isprintable"; "isspace"; "istitle"; "isupper"; "join";
   "ljust"; "lower"; "lstrip"; "maketrans"; "partition"; "removeprefix";
   "removesuffix"; "replace"; "rfind"; "rindex"; "rjust"; "rpartition";
   "rsplit"; "rstrip"; "split"; "splitlines"; "startswith"; "strip";
   "swapcase"; "title"; "translate"; "upper"; "zfill"].

Definition int_methods : list string :=
  ["as_integer_ratio"; "bit_count"; "bit_length"; "conjugate"; "from_bytes";
   "to_bytes"].

(** [getattr(obj, name)]. *)
Definition py_getattr (obj : value) (name : string) : result value :=
  match obj with
  | VObj attrs =>
      match assoc name attrs with
      | Some v => Normal v
      | None => Raise AttributeError
      end
  | VDict _ =>
      if mem_string name dict_methods then Normal (VMethod obj name)
      else Raise AttributeError
  | VList _ =>
      if mem_string name list_methods then Normal (VMethod obj name)
      else Raise AttributeError
  | VStr _ =>
      if mem_string name str_methods then Normal (VMethod obj name)
      else Raise AttributeError
  | VInt n =>
      if mem_string name ["real"; "numerator"] then Normal (VInt n)
      else if String.eqb name "imag" then Normal (VInt 0)
      else if String.eqb name "denominator" then Normal (VInt 1)
      else if mem_string name int_methods then Normal (VMethod obj name)
      else Raise AttributeError
  | VNone => Raise AttributeError
  | VMethod _ _ => Raise AttributeError
  end.

(** [d.get(key)] on a mapping: the value, or [None] when the key is absent. *)
Definition dict_get (d : list (string * value)) (key : string) : value :=
  match assoc key d with
  | Some v => v
  | None => VNone
  end.

(** [f(arg)] for a string argument.  The one built-in method the source calls
    is [dict.get]; data values are not callable. *)
Definition py_call (f : value) (arg : string) : result value :=
  match f with
  | VMethod (VDict d) name =>
      if String.eqb name "get" then Normal (dict_get d arg) else Raise TypeError
  | _ => Raise TypeError
  end.

(** [obj[i]] for a non-negative integer index. *)
Definition py_getitem (obj : value) (i : nat) : result value :=
  match obj with
  | VList items =>
      match nth_error items i with
      | Some x => Normal x
      | None => Raise IndexError
      end
  | VStr s =>
      match String.get i s with
      | Some c => Normal (VStr (String c EmptyString))
      | None => Raise IndexError
      end
  | VDict _ => Raise KeyError
  | _ => Raise TypeError
  end.

Fixpoint chars (s : string) : list value :=
  match s with
  | EmptyString => []
  | String c tl => VStr (String c EmptyString) :: chars tl
  end.

(** [for x in obj]: the elements in iteration order. *)
Definition py_iter (obj : value) : result (list value) :=
  match obj with
  | VList items => Normal items
  | VStr s => Normal (chars s)
  | VDict entries => Normal (map (fun kv => VStr (fst kv)) entries)
  | _ => Raise TypeError
  end.

(** ** Python string operations used by the source *)

(** [s.partition(sep)] for a one-character separator. *)
Fixpoint partition (sep : ascii) (s : string) : string * string * string :=
  match s with
  | EmptyString => ("", "", "")
  | String c tl =>
      if Ascii.eqb c sep then ("", String sep "", tl)
      else let '(h, m, t) := partition sep tl in (String c h, m, t)
  end.

(** [s.endswith(suffix)]. *)
Definition endswith (s suffix : string) : bool :=
  Nat.leb (String.length suffix) (String.length s)
  && String.eqb
       (substring (String.length s - String.length suffix)
                  (String.length suffix) s)
       suffix.

(** [s[:-n]] for a positive [n]. *)
Definition drop_last (n : nat) (s : string) : string :=
  substring 0 (String.length s - n) s.

(** ** The inflection package *)

(** [underscore] and [camelize] are imported from the third-party inflection
    package; the resolvers are stated over any implementation of the two. *)
Class Inflection : Type := {
  underscore : string -> result string;
  camelize : string -> bool -> result string
}.

(** ** scc.py *)

Section Resolvers.
Context {inflection : Inflection}.

(** [_get(obj, attr)], scc.py lines 407-431. *)
Definition _get (obj : value) (attr : string) : result value :=
  try_except (py_getattr obj attr) [AttributeError] (
  try_except (u <- underscore attr ;; py_getattr obj u) [AttributeError] (
  try_except (c <- camelize attr false ;; py_getattr obj c) [AttributeError] (
  try_except (get <- py_getattr obj "get" ;; py_call get attr)
             [KeyError; AttributeError]
             (Raise KeyError)))).

(** The bracket suffix of a path segment, scc.py lines 184-193: the stripped
    attribute name, [grab_one] and [grab_all]. *)
Definition array_marker (attr : string) : string * bool * bool :=
  if endswith attr "[]" then (drop_last 2 attr, true, false)
  else if endswith attr "[0]" then (drop_last 2 attr, true, false)
  else if endswith attr "[*]" then (drop_last 3 attr, false, true)
  else (attr, false, false).

(** The remainder that [partition] returns is shorter than a non-empty path. *)
Ltac partition_tail_shorter :=
  match goal with
  | c : ascii, s : string |- _ =>
      let H := fresh "H" in
      assert (H : forall (t : string) (a : ascii),
                 String.length (snd (partition "." (String a t)))
                 < String.length (String a t));
      [ clear; intros t; induction t as [|d t IH]; intros a; simpl;
        destruct (Ascii.eqb a "."); simpl; try lia;
        specialize (IH d); simpl in IH;
        destruct (Ascii.eqb d "."); simpl in *; try lia;
        destruct (partition "." t) as [[h m] r]; simpl in *; lia
      | exact (H s c) ]
  end.

(** [get_value(obj, path)], scc.py lines 149-199. *)
Equations get_value (obj : value) (path : string) : result value
  by wf (String.length path) lt :=
  get_value obj EmptyString := Normal obj;
  get_value obj (String c s) :=
    let p := partition "." (String c s) in
    let m := array_marker (fst (fst p)) in
    bind (_get obj (fst (fst m))) (fun got =>
      if snd (fst m) then
        bind (py_getitem got 0) (fun first => get_value first (snd p))
      else if snd m then
        bind (py_iter got) (fun items =>
          bind (mapM (fun _obj => get_value _obj (snd p)) items)
               (fun out => Normal (VList out)))
      else get_value got (snd p)).
Next Obligation. partition_tail_shorter. Qed.
Next Obligation. partition_tail_shorter. Qed.
Next Obligation. partition_tail_shorter. Qed.

End Resolvers.

(** ** An executable model of the inflection package on ASCII strings *)

Definition is_upper (c : ascii) : bool :=
  let n := nat_of_ascii c in (65 <=? n)%nat && (n <=? 90)%nat.

Definition is_lower (c : ascii) : bool :=
  let n := nat_of_ascii c in (97 <=? n)%nat && (n <=? 122)%nat.

Definition is_digit (c : ascii) : bool :=
  let n := nat_of_ascii c in (48 <=? n)%nat && (n <=? 57)%nat.

Definition to_lower (c : ascii) : ascii :=
  if is_upper c then ascii_of_nat (nat_of_ascii c + 32) else c.

Definition to_upper (c : ascii) : ascii :=
  if is_lower c then ascii_of_nat (nat_of_ascii c - 32) else c.

Fixpoint string_map (f : ascii -> ascii) (s : string) : string :=
  match s with
  | EmptyString => EmptyString
  | String c tl => String (f c) (string_map f tl)
  end.

(** [re.sub(r"([A-Z]+)([A-Z][a-z])", r"\1_\2", word)]: an underscore goes
    before the last capital of a run of capitals that a small letter follows. *)
Fixpoint split_acronyms (s : string) : string :=
  match s with
  | EmptyString => EmptyString
  | String a tl =>
      match tl with
      | String b (String c _) =>
          if is_upper a && is_upper b && is_lower c
          then String a (String "_" (split_acronyms tl))
          else String a (split_acronyms tl)
      | _ => String a (split_acronyms tl)
      end
  end.

(** [re.sub(r"([a-z\d])([A-Z])", r"\1_\2", word)]. *)
Fixpoint split_words (s : string) : string :=
  match s with
  | EmptyString => EmptyString
  | String a tl =>
      match tl with
      | String b _ =>
          if (is_lower a || is_digit a) && is_upper b
          then String a (String "_" (split_words tl))
          else String a (split_words tl)
      | EmptyString => String a EmptyString
      end
  end.

Definition dash_to_underscore (c : ascii) : ascii :=
  if Ascii.eqb c "-" then "_"%char else c.

Definition inflection_underscore (word : string) : string :=
  string_map to_lower
    (string_map dash_to_underscore (split_words (split_acronyms word))).

Definition newline : ascii := ascii_of_nat 10.

(** [re.sub(r"(?:^|_)(.)", lambda m: m.group(1).upper(), string)], from the
    second character on. *)
Fixpoint camelize_rest (s : string) : string :=
  match s with
  | EmptyString => EmptyString
  | String a tl =>
      match tl with
      | String b tl' =>
          if Ascii.eqb a "_" && negb (Ascii.eqb b newline)
          then String (to_upper b) (camelize_rest tl')
          else String a (camelize_rest tl)
      | EmptyString => String a EmptyString
      end
  end.

Definition camelize_upper (s : string) : string :=
  match s with
  | EmptyString => EmptyString
  | String a tl =>
      if Ascii.eqb a newline then camelize_rest s
      else String (to_upper a) (camelize_rest tl)
  end.

(** [camelize(string, uppercase_first_letter)]; with [False] the source of the
    package takes [string[0]], which raises [IndexError] on the empty string. *)
Definition inflection_camelize (s : string) (uppercase_first_letter : bool)
    : result string :=
  if uppercase_first_letter then Normal (camelize_upper s)
  else
    match s with
    | EmptyString => Raise IndexError
    | String a _ =>
        Normal (String (to_lower a)
                  (substring 1 (String.length (camelize_upper s)) (camelize_upper s)))
    end.

#[export] Instance ascii_inflection : Inflection := {
  underscore := fun word => Normal (inflection_underscore word);
  camelize := inflection_camelize
}.


(** ** Python operations used by classes.py *)

(** [key in d] for a mapping. *)
Definition dict_contains (key : string) (d : list (string * value)) : bool :=
  match assoc key d with
  | Some _ => true
  | None => false
  end.

(** [s.split(sep)] for a one-character separator. *)
Fixpoint split (sep : ascii) (s : string) : list string :=
  match s with
  | EmptyString => [EmptyString]
  | String c tl =>
      if Ascii.eqb c sep then EmptyString :: split sep tl
      else match split sep tl with
           | h :: t => String c h :: t
           | [] => [String c EmptyString]
           end
  end.

(** [v.split("/")]: a method of [str]; on any other value the attribute is
    looked up and called as usual. *)
Definition py_split_slash (v : value) : result value :=
  match v with
  | VStr s => Normal (VList (map VStr (split "/" s)))
  | _ => f <- py_getattr v "split" ;; py_call f "/"
  end.

(** [obj[key]] for a string key. *)
Definition py_subscript (obj : value) (key : string) : result value :=
  match obj with
  | VDict d =>
      match assoc key d with
      | Some v => Normal v
      | None => Raise KeyError
      end
  | _ => Raise TypeError
  end.

(** [obj.get(key, None)]. *)
Definition py_get_or_none (obj : value) (key : string) : result value :=
  match obj with
  | VDict d => Normal (dict_get d key)
  | _ => f <- py_getattr obj "get" ;; py_call f key
  end.

(** Truth value of an object in an [if]. *)
Definition truthy (v : value) : bool :=
  match v with
  | VNone => false
  | VInt n => negb (Z.eqb n 0)
  | VStr s => negb (String.eqb s "")
  | VList items => match items with [] => false | _ => true end
  | VDict entries => match entries with [] => false | _ => true end
  | _ => true
  end.

(** [v in [s1, s2, ...]] for a list of string literals. *)
Definition in_strings (v : value) (l : list string) : bool :=
  match v with
  | VStr s => mem_string s l
  | _ => false
  end.

Definition scalar_eqb (a b : value) : bool :=
  match a, b with
  | VNone, VNone => true
  | VInt x, VInt y => Z.eqb x y
  | VStr x, VStr y => String.eqb x y
  | _, _ => false
  end.

(** [list(set(l))].  The order of a set is unspecified: the model keeps the
    first occurrence of each element.  Lists, dicts and messages are not
    hashable. *)
Fixpoint list_set (l : list value) : result (list value) :=
  match l with
  | [] => Normal []
  | x :: tl =>
      match x with
      | VList _ | VDict _ | VObj _ => Raise TypeError
      | _ =>
          rest <- list_set tl ;;
          Normal (x :: List.filter (fun y => negb (scalar_eqb x y)) rest)
      end
  end.

(** Reading a local variable: unbound until its first assignment. *)
Definition load_local {A : Type} (x : option A) : result A :=
  match x with
  | Some v => Normal v
  | None => Raise UnboundLocalError
  end.

(** ** Security Command Center assets and client *)

(** A JSON text, represented by what [json.loads] makes of it: the decoded
    document, or the exception of the decoder. *)
Definition json_text : Type := result value.

Definition json_loads (s : json_text) : result value := s.

Record SecurityCenterProperties : Type := {
  resource_name : string;
  resource_type : string;
  resource_parent : string;
  resource_display_name : string;
  resource_owners : list string
}.

Record IamPolicy : Type := { policy_blob : json_text }.

Record Asset : Type := {
  security_center_properties : SecurityCenterProperties;
  resource_properties : list (string * value);
  iam_policy : IamPolicy
}.

Record ListAssetsResult : Type := { asset : Asset }.

Record ListAssetsRequest : Type := {
  request_parent : string;
  request_filter : string;
  request_page_size : nat
}.

(** The vendor client: [SecurityCenterClient.list_assets], with the pager it
    returns read as the list of its results. *)
Class SecurityCenterClient : Type := {
  list_assets : ListAssetsRequest -> result (list ListAssetsResult)
}.

Definition dquote : string := String (ascii_of_nat 34) EmptyString.

Definition resource_name_filter (name : string) : string :=
  "security_center_properties.resource_name=" ++ dquote ++ name ++ dquote.

Section ParentInfo.
Context {client : SecurityCenterClient}.

(** [_get_all_assets_iter(request)], scc.py lines 397-404. *)
Definition _get_all_assets_iter (request : ListAssetsRequest)
    : result (list ListAssetsResult) :=
  list_assets request.

(** [get_asset(resource_name, gcp_org_id)], scc.py lines 103-146. *)
Definition get_asset (resource_name gcp_org_id : string) : result Asset :=
  assets <- _get_all_assets_iter
              {| request_parent := "organizations/" ++ gcp_org_id;
                 request_filter := resource_name_filter resource_name;
                 request_page_size := 1 |} ;;
  match assets with
  | a :: _ => Normal (asset a)
  | [] => Raise ValueError
  end.

(** [_extract_parent_info_project], classes.py lines 195-199. *)
Definition _extract_parent_info_project (asset : Asset)
    : result (value * list value) :=
  Normal (dict_get (resource_properties asset) "projectNumber",
          map VStr (resource_owners (security_center_properties asset))).

Definition owner_roles : list string :=
  ["roles/resourcemanager.folderAdmin"; "roles/owner"].

(** The loop of classes.py lines 209-214 over the bindings still to visit;
    [owners] is the local variable, [None] while it is unbound. *)
Fixpoint collect_owners (iam_bindings : list value) (owners : option (list value))
    : result (option (list value)) :=
  match iam_bindings with
  | [] => Normal owners
  | binding :: tl =>
      role <- py_subscript binding "role" ;;
      if in_strings role owner_roles then
        o <- load_local owners ;;
        members <- py_subscript binding "members" ;;
        ms <- py_iter members ;;
        collect_owners tl (Some (o ++ ms)%list)
      else collect_owners tl owners
  end.

(** [_extract_parent_info_folder], classes.py lines 201-216.  The function
    assigns [owners], so the name is local to it and starts unbound. *)
Definition _extract_parent_info_folder (asset : Asset)
    : result (value * list value) :=
  let owners : option (list value) := None in
  id_num <-
    (if dict_contains "folderId" (resource_properties asset)
     then Normal (dict_get (resource_properties asset) "folderId")
     else
       parts <- py_split_slash (dict_get (resource_properties asset) "name") ;;
       py_getitem parts 1) ;;
  policy <- json_loads (policy_blob (iam_policy asset)) ;;
  iam_bindings <- py_get_or_none policy "bindings" ;;
  owners <-
    (if truthy iam_bindings then
       bindings <- py_iter iam_bindings ;;
       owners <- collect_owners bindings owners ;;
       o <- load_local owners ;;
       deduplicated <- list_set o ;;
       Normal (Some deduplicated)
     else Normal owners) ;;
  o <- load_local owners ;;
  Normal (id_num, o).

(** [_extract_parent_info_org], classes.py lines 218-219. *)
Definition _extract_parent_info_org (asset : Asset)
    : result (value * list value) :=
  Normal (dict_get (resource_properties asset) "organizationId", []).

Definition parent_types : list string :=
  ["google.cloud.resourcemanager.Project";
   "google.cloud.resourcemanager.Folder";
   "google.cloud.resourcemanager.Organization"].

Definition is_parent (a : Asset) : bool :=
  mem_string (resource_type (security_center_properties a)) parent_types.

(** The [while] loop of classes.py lines 164-169, run for at most [fuel]
    iterations: [None] when the loop is still running after them. *)
Fixpoint climb (fuel : nat) (a : Asset) (gcp_org_id : string)
    : option (result Asset) :=
  if is_parent a then Some (Normal a)
  else
    match fuel with
    | O => None
    | S fuel' =>
        match get_asset (resource_parent (security_center_properties a))
                        gcp_org_id with
        | Normal a' => climb fuel' a' gcp_org_id
        | Raise e => Some (Raise e)
        end
    end.

Definition parent_info : Type := string * string * string * value * list value.

(** The part of [_get_parent_info] after the loop, classes.py lines 171-193. *)
Definition describe_parent (a : Asset) : result parent_info :=
  let owners : list value := [] in
  extracted <-
    (if String.eqb (resource_type (security_center_properties a))
                   "google.cloud.resourcemanager.Project"
     then _extract_parent_info_project a
     else if String.eqb (resource_type (security_center_properties a))
                        "google.cloud.resourcemanager.Folder"
     then _extract_parent_info_folder a
     else _extract_parent_info_org a) ;;
  let '(id_num, owners) := extracted in
  Normal (resource_display_name (security_center_properties a),
          resource_type (security_center_properties a),
          resource_name (security_center_properties a),
          id_num,
          owners).

(** [FindingParentInfo._get_parent_info], classes.py lines 155-193. *)
Definition _get_parent_info (fuel : nat) (resource gcp_org_id : string)
    : option (result parent_info) :=
  match get_asset resource gcp_org_id with
  | Raise e => Some (Raise e)
  | Normal a =>
      match climb fuel a gcp_org_id with
      | None => None
      | Some (Raise e) => Some (Raise e)
      | Some (Normal a) => Some (describe_parent a)
      end
  end.

(** The attributes of a [FindingParentInfo] object. *)
Record FindingParentInfo : Type := {
  displayName : string;
  type : string;
  resourceName : string;
  idNum : value;
  owners : list value
}.

(** [FindingParentInfo.__init__], classes.py lines 135-153: a [ValueError] is
    logged and raised again. *)
Definition FindingParentInfo_init (fuel : nat) (resource gcp_org_id : string)
    : option (result FindingParentInfo) :=
  match _get_parent_info fuel resource gcp_org_id with
  | None => None
  | Some r =>
      Some (try_except
              (info <- r ;;
               let '(d, t, n, i, o) := info in
               Normal {| displayName := d; type := t; resourceName := n;
                         idNum := i; owners := o |})
              [ValueError] (Raise ValueError))
  end.

End ParentInfo.

(** ** Notions used to state the properties *)

(** A path segment without a dot. *)
Fixpoint no_dot (s : string) : bool :=
  match s with
  | EmptyString => true
  | String c tl => negb (Ascii.eqb c ".") && no_dot tl
  end.

(** A path that is one plain field name: not empty, no dot, no bracket
    suffix. *)
Definition plain_name (s : string) : bool :=
  negb (String.eqb s "") && no_dot s
  && negb (endswith s "[]") && negb (endswith s "[0]") && negb (endswith s "[*]").

(** The two record capabilities of the specification (section 9). *)
Definition tryGetAttribute (record : value) (name : string) : option value :=
  match py_getattr record name with
  | Normal v => Some v
  | Raise _ => None
  end.

Definition tryGetKey (record : value) (name : string) : option value :=
  match record with
  | VDict d => assoc name d
  | _ => None
  end.

Fixpoint first_success (attempts : list (option value)) : option value :=
  match attempts with
  | [] => None
  | Some v :: _ => Some v
  | None :: tl => first_success tl
  end.

(** The resolution order of the specification (section 4.1), for a field
    name and its snake_case and camelCase conversions: [None] when no
    strategy succeeds. *)
Definition AttributeResolver_resolve (record : value)
    (fieldName snake camel : string) : option value :=
  first_success
    [tryGetAttribute record fieldName;
     tryGetAttribute record snake;
     tryGetAttribute record camel;
     tryGetKey record fieldName].

Section Notions.
Context {inflection : Inflection} {client : SecurityCenterClient}.

(** The three attribute attempts of [_get] all end in [AttributeError]. *)
Definition attribute_chain_exhausted (obj : value) (attr : string) : Prop :=
  py_getattr obj attr = Raise AttributeError /\
  (u <- underscore attr ;; py_getattr obj u) = Raise AttributeError /\
  (c <- camelize attr false ;; py_getattr obj c) = Raise AttributeError.

(** [reaches org k a t]: from asset [a], [k] successful lookups of
    [resource_parent] lead through assets that are no project, folder or
    organization to the asset [t], which is one. *)
Inductive reaches (gcp_org_id : string) : nat -> Asset -> Asset -> Prop :=
| reaches_here (a : Asset) :
    is_parent a = true -> reaches gcp_org_id 0 a a
| reaches_up (k : nat) (a p t : Asset) :
    is_parent a = false ->
    get_asset (resource_parent (security_center_properties a)) gcp_org_id
      = Normal p ->
    reaches gcp_org_id k p t ->
    reaches gcp_org_id (S k) a t.

(** [stops org a]: the loop started at [a] ends, at a project, folder or
    organization or at a lookup that raises. *)
Inductive stops (gcp_org_id : string) : Asset -> Prop :=
| stops_parent (a : Asset) :
    is_parent a = true -> stops gcp_org_id a
| stops_error (a : Asset) (e : exn) :
    is_parent a = false ->
    get_asset (resource_parent (security_center_properties a)) gcp_org_id
      = Raise e ->
    stops gcp_org_id a
| stops_up (a p : Asset) :
    is_parent a = false ->
    get_asset (resource_parent (security_center_properties a)) gcp_org_id
      = Normal p ->
    stops gcp_org_id p ->
    stops gcp_org_id a.

(** The hierarchy walk returns: some number of loop iterations is enough for
    [_get_parent_info] to end, with a result or with an exception. *)
Definition walk_terminates (resource gcp_org_id : string) : Prop :=
  exists fuel out, _get_parent_info fuel resource gcp_org_id = Some out.

End Notions.

(** ** Example data *)

Definition example_record : value :=
  VObj [("a", VList [VObj [("b", VInt 1)]; VObj [("b", VInt 2)]])].

Definition example_mapping : value := VDict [("a", VInt 1)].

(** A message with a snake_case field, and a decoded JSON object with a
    camelCase key. *)
Definition example_message : value :=
  VObj [("resource_name", VStr "//storage.googleapis.com/bucket")].

Definition example_json : value :=
  VDict [("resourceName", VStr "//storage.googleapis.com/bucket")].

Definition example_project : Asset :=
  {| security_center_properties :=
       {| resource_name := "//cloudresourcemanager.googleapis.com/projects/123123";
          resource_type := "google.cloud.resourcemanager.Project";
          resource_parent := "//cloudresourcemanager.googleapis.com/folders/456";
          resource_display_name := "my-project";
          resource_owners := ["user:alice@example.com"; "user:bob@example.com"] |};
     resource_properties :=
       [("projectId", VStr "my-project"); ("projectNumber", VInt 123123)];
     iam_policy := {| policy_blob := Normal (VDict []) |} |}.

Definition example_instance : Asset :=
  {| security_center_properties :=
       {| resource_name :=
            "//compute.googleapis.com/projects/my-project/zones/us-central1-a/instances/vm-1";
          resource_type := "google.compute.Instance";
          resource_parent := "//cloudresourcemanager.googleapis.com/projects/123123";
          resource_display_name := "vm-1";
          resource_owners := [] |};
     resource_properties := [("name", VStr "vm-1")];
     iam_policy := {| policy_blob := Normal (VDict []) |} |}.

(** A folder whose policy grants [folderAdmin] to alice and bob and [owner]
    to bob and carol. *)
Definition example_folder : Asset :=
  {| security_center_properties :=
       {| resource_name := "//cloudresourcemanager.googleapis.com/folders/456";
          resource_type := "google.cloud.resourcemanager.Folder";
          resource_parent := "//cloudresourcemanager.googleapis.com/organizations/1";
          resource_display_name := "my-folder";
          resource_owners := [] |};
     resource_properties := [("folderId", VStr "456"); ("name", VStr "folders/456")];
     iam_policy :=
       {| policy_blob :=
            Normal (VDict
              [("bindings",
                VList
                  [VDict [("role", VStr "roles/resourcemanager.folderAdmin");
                          ("members", VList [VStr "alice"; VStr "bob"])];
                   VDict [("role", VStr "roles/owner");
                          ("members", VList [VStr "bob"; VStr "carol"])]])]) |} |}.

(** The same folder with a policy that has no bindings. *)
Definition example_folder_no_bindings : Asset :=
  {| security_center_properties := security_center_properties example_folder;
     resource_properties := resource_properties example_folder;
     iam_policy := {| policy_blob := Normal (VDict []) |} |}.

Definition example_folder_instance : Asset :=
  {| security_center_properties :=
       {| resource_name := "//compute.googleapis.com/projects/p/zones/z/instances/vm-2";
          resource_type := "google.compute.Instance";
          resource_parent := "//cloudresourcemanager.googleapis.com/folders/456";
          resource_display_name := "vm-2";
          resource_owners := [] |};
     resource_properties := [("name", VStr "vm-2")];
     iam_policy := {| policy_blob := Normal (VDict []) |} |}.

(** An asset that names itself as its parent. *)
Definition example_cyclic : Asset :=
  {| security_center_properties :=
       {| resource_name := "//compute.googleapis.com/projects/p/zones/z/disks/d";
          resource_type := "google.compute.Disk";
          resource_parent := "//compute.googleapis.com/projects/p/zones/z/disks/d";
          resource_display_name := "d";
          resource_owners := [] |};
     resource_properties := [];
     iam_policy := {| policy_blob := Normal (VDict []) |} |}.

(** A client over a fixed inventory: it answers a resource-name filter with
    the assets of that name. *)
Definition inventory_client (inventory : list Asset) : SecurityCenterClient :=
  {| list_assets := fun request =>
       Normal
         (map (fun a => {| asset := a |})
            (List.filter
               (fun a =>
                  String.eqb (request_filter request)
                    (resource_name_filter
                       (resource_name (security_center_properties a))))
               inventory)) |}.

Definition example_inventory : list Asset :=
  [example_instance; example_project; example_folder_instance; example_folder;
   example_cyclic].

(** ** Further functions of scc.py and classes.py *)

(** [sep.join(parts)]. *)
Fixpoint join (sep : string) (parts : list string) : string :=
  match parts with
  | [] => EmptyString
  | p :: tl =>
      match tl with
      | [] => p
      | _ => p ++ sep ++ join sep tl
      end
  end.

(** [sub in s] for two strings. *)
Fixpoint contains (sub s : string) : bool :=
  prefix sub s
  || match s with
     | EmptyString => false
     | String _ tl => contains sub tl
     end.

Fixpoint no_slash (s : string) : bool :=
  match s with
  | EmptyString => true
  | String c tl => negb (Ascii.eqb c "/") && no_slash tl
  end.

(** A dotted path of field names, and the successive [_get] calls it
    stands for. *)
Definition dotted (names : list string) : string := join "." names.

Section FieldChain.
Context {inflection : Inflection}.

Fixpoint get_each (obj : value) (names : list string) : result value :=
  match names with
  | [] => Normal obj
  | n :: tl => got <- _get obj n ;; get_each got tl
  end.

End FieldChain.

(** A source of findings, as [scc.get_sources] lists them. *)
Record Source : Type := {
  source_name : string;
  display_name : string
}.

(** The functions of the [scc] module that classes.py calls and whose code
    is not in scc.py: they are taken as collaborators. *)
Class SccLookups : Type := {
  get_security_marks : string -> string -> result value;
  get_sources : string -> result (list Source)
}.

Section FindingInfo.
Context {lookups : SccLookups}.

(** The loop of [_get_finding_source], classes.py lines 40-43: the display
    name of the first source of that name, [None] without one. *)
Fixpoint first_display_name (sources : list Source) (finding_source : string)
    : option string :=
  match sources with
  | [] => None
  | source :: tl =>
      if String.eqb (source_name source) finding_source
      then Some (display_name source)
      else first_display_name tl finding_source
  end.

(** [FindingInfo._get_finding_source], classes.py lines 37-43. *)
Definition _get_finding_source (finding_source : string)
    : result (option string) :=
  let source_parent := join "/" (firstn 2 (split "/" finding_source)) in
  sources <- get_sources source_parent ;;
  Normal (first_display_name sources finding_source).

(** [FindingInfo._get_asset_security_marks], classes.py lines 99-114. *)
Definition _get_asset_security_marks (resource_name gcp_org_id : string)
    : result value :=
  if negb (contains "/organizations/" resource_name) then
    try_except (get_security_marks resource_name gcp_org_id) [ValueError]
      (Normal VNone)
  else Normal VNone.

End FindingInfo.

(** The requests that change something in Security Command Center. *)
Inductive api_call : Type :=
| UpdateSecurityMarks (name : string) (marks : list (string * value))
    (update_mask : list string).

(** The client of such a request: what the call returns or raises. *)
Class SecurityMarksClient : Type := {
  update_security_marks : api_call -> result unit
}.

(** The decoders behind [parse_notification]: [json.dumps] and
    [ListFindingsResult.from_json]; a [ParseError] of the latter is
    [OtherError "ParseError"]. *)
Class NotificationCodec : Type := {
  json_dumps : list (string * value) -> result string;
  from_json : string -> bool -> result value
}.

Definition ParseError : exn := OtherError "ParseError".

Section Mutations.
Context {marks_client : SecurityMarksClient} {codec : NotificationCodec}.

(** [set_security_mark(scc_name, marks)], scc.py lines 340-384: the requests
    sent, in order, and the outcome. *)
Definition set_security_mark (scc_name : string) (marks : value)
    : list api_call * result unit :=
  match marks with
  | VDict d =>
      let mask_paths := map (fun kv => "marks." ++ fst kv) d in
      let request :=
        UpdateSecurityMarks (scc_name ++ "/securityMarks") d mask_paths in
      ([request], update_security_marks request)
  | _ => ([], Raise TypeError)
  end.

(** [parse_notification(notification, ignore_unknown_fields)], scc.py lines
    247-294. *)
Definition parse_notification (notification : value)
    (ignore_unknown_fields : bool) : result value :=
  text <-
    match notification with
    | VDict d => json_dumps d
    | VStr s => Normal s
    | _ => Raise TypeError
    end ;;
  try_except (from_json text ignore_unknown_fields) [ParseError]
    (Raise TypeError).

End Mutations.

(** [fails org k a e]: from asset [a], [k] successful lookups lead through
    assets that are no project, folder or organization, and the next lookup
    raises [e]. *)
Inductive fails {client : SecurityCenterClient} (gcp_org_id : string)
    : nat -> Asset -> exn -> Prop :=
| fails_here (a : Asset) (e : exn) :
    is_parent a = false ->
    get_asset (resource_parent (security_center_properties a)) gcp_org_id
      = Raise e ->
    fails gcp_org_id 0 a e
| fails_up (k : nat) (a p : Asset) (e : exn) :
    is_parent a = false ->
    get_asset (resource_parent (security_center_properties a)) gcp_org_id
      = Normal p ->
    fails gcp_org_id k p e ->
    fails gcp_org_id (S k) a e.

(** ** Further example data *)

(** A notification of Event Threat Detection, reduced to the fields that
    [FindingInfo] reads through [get_value]. *)
Definition example_notification : value :=
  VObj [("finding",
         VObj [("name", VStr "organizations/1/sources/2/findings/3");
               ("source_properties",
                VDict [("sourceId",
                        VDict [("projectNumber", VStr "123123")])])])].

Definition example_organization : Asset :=
  {| security_center_properties :=
       {| resource_name := "//cloudresourcemanager.googleapis.com/organizations/1";
          resource_type := "google.cloud.resourcemanager.Organization";
          resource_parent := "";
          resource_display_name := "example.com";
          resource_owners := ["user:root@example.com"] |};
     resource_properties := [("organizationId", VStr "1")];
     iam_policy := {| policy_blob := Normal (VDict []) |} |}.

Definition example_bucket : Asset :=
  {| security_center_properties :=
       {| resource_name := "//storage.googleapis.com/logs";
          resource_type := "google.cloud.storage.Bucket";
          resource_parent := "//cloudresourcemanager.googleapis.com/organizations/1";
          resource_display_name := "logs";
          resource_owners := [] |};
     resource_properties := [("name", VStr "logs")];
     iam_policy := {| policy_blob := Normal (VDict []) |} |}.

(** An asset whose parent is not in the inventory. *)
Definition example_orphan : Asset :=
  {| security_center_properties :=
       {| resource_name := "//storage.googleapis.com/orphan";
          resource_type := "google.cloud.storage.Bucket";
          resource_parent := "//cloudresourcemanager.googleapis.com/projects/gone";
          resource_display_name := "orphan";
          resource_owners := [] |};
     resource_properties := [];
     iam_policy := {| policy_blob := Normal (VDict []) |} |}.

Definition example_org_inventory : list Asset :=
  [example_bucket; example_organization; example_orphan].

Definition example_sources : list Source :=
  [{| source_name := "organizations/1/sources/2";
      display_name := "Event Threat Detection" |};
   {| source_name := "organizations/1/sources/3";
      display_name := "Security Health Analytics" |}].

(** Lookups over fixed data: the sources of one organization, and marks for
    one bucket; an unknown resource is a [ValueError]. *)
Definition example_lookups : SccLookups :=
  {| get_security_marks := fun resource_name _ =>
       if String.eqb resource_name "//storage.googleapis.com/logs"
       then Normal (VDict [("reviewed", VStr "true")])
       else Raise ValueError;
     get_sources := fun parent =>
       if String.eqb parent "organizations/1" then Normal example_sources
       else Normal [] |}.

Definition accepting_client : SecurityMarksClient :=
  {| update_security_marks := fun _ => Normal tt |}.

(** A codec that knows one document: the empty JSON object. *)
Definition example_codec : NotificationCodec :=
  {| json_dumps := fun d =>
       match d with
       | [] => Normal "{}"
       | _ => Raise TypeError
       end;
     from_json := fun text _ =>
       if String.eqb text "{}" then Normal (VObj []) else Raise ParseError |}.

(** ** Facts about the string operations *)

Lemma length_app (a b : string) :
  String.length (a ++ b) = String.length a + String.length b.
Proof. induction a as [|c a IH]; simpl; [reflexivity | now rewrite IH]. Qed.

Lemma app_assoc_string (a b c : string) : (a ++ b) ++ c = a ++ (b ++ c).
Proof. induction a as [|x a IH]; simpl; [reflexivity | now rewrite IH]. Qed.

Lemma substring_all (s : string) : substring 0 (String.length s) s = s.
Proof. induction s as [|c s IH]; simpl; [reflexivity | now rewrite IH]. Qed.

Lemma substring_prefix (a b : string) :
  substring 0 (String.length a) (a ++ b) = a.
Proof.
  induction a as [|c a IH]; simpl.
  - destruct b; reflexivity.
  - now rewrite IH.
Qed.

Lemma substring_skip (a b : string) (k n : nat) :
  substring (String.length a + k) n (a ++ b) = substring k n b.
Proof. induction a as [|c a IH]; simpl; [reflexivity | exact IH]. Qed.

Lemma endswith_app (a suffix : string) : endswith (a ++ suffix) suffix = true.
Proof.
  unfold endswith. rewrite length_app.
  replace (String.length a + String.length suffix - String.length suffix)
    with (String.length a + 0) by lia.
  rewrite substring_skip, substring_all, String.eqb_refl, andb_true_r.
  apply Nat.leb_le. lia.
Qed.

Lemma drop_last_app (a suffix : string) :
  drop_last (String.length suffix) (a ++ suffix) = a.
Proof.
  unfold drop_last. rewrite length_app.
  replace (String.length a + String.length suffix - String.length suffix)
    with (String.length a) by lia.
  apply substring_prefix.
Qed.

(** The last [n] characters of [a ++ b], for [n] at most the length of [b]. *)
Lemma endswith_app_tail (a b suffix : string) :
  String.length suffix <= String.length b ->
  endswith (a ++ b) suffix = endswith b suffix.
Proof.
  intros Hle. unfold endswith. rewrite length_app.
  replace (String.length a + String.length b - String.length suffix)
    with (String.length a + (String.length b - String.length suffix)) by lia.
  rewrite substring_skip.
  assert (H1 : Nat.leb (String.length suffix) (String.length a + String.length b) = true)
    by (apply Nat.leb_le; lia).
  assert (H2 : Nat.leb (String.length suffix) (String.length b) = true)
    by (apply Nat.leb_le; lia).
  now rewrite H1, H2.
Qed.

Lemma no_dot_app (a b : string) : no_dot (a ++ b) = no_dot a && no_dot b.
Proof.
  induction a as [|c a IH]; simpl; [reflexivity|].
  now rewrite IH, andb_assoc.
Qed.

Lemma partition_no_dot (a : string) :
  no_dot a = true -> partition "." a = (a, "", "").
Proof.
  induction a as [|c a IH]; simpl; [reflexivity|].
  intros H. apply andb_prop in H. destruct H as [Hc Ha].
  apply negb_true_iff in Hc. rewrite Hc, (IH Ha). reflexivity.
Qed.

Lemma partition_at_dot (a rest : string) :
  no_dot a = true -> partition "." (a ++ String "." rest) = (a, ".", rest).
Proof.
  induction a as [|c a IH]; simpl; [reflexivity|].
  intros H. apply andb_prop in H. destruct H as [Hc Ha].
  apply negb_true_iff in Hc. rewrite Hc, (IH Ha). reflexivity.
Qed.

Section ResolverFacts.
Context {inflection : Inflection}.

(** The three bracket suffixes, as [array_marker] reads them. *)
Lemma array_marker_take_first (a : string) :
  array_marker (a ++ "[]") = (a, true, false).
Proof.
  unfold array_marker. rewrite endswith_app.
  pose proof (drop_last_app a "[]") as Hdrop.
  change (String.length "[]") with 2 in Hdrop. now rewrite Hdrop.
Qed.

Lemma array_marker_fan_out (a : string) :
  array_marker (a ++ "[*]") = (a, false, true).
Proof.
  unfold array_marker.
  rewrite (endswith_app_tail a "[*]" "[]") by (simpl; lia).
  rewrite (endswith_app_tail a "[*]" "[0]") by (simpl; lia).
  rewrite endswith_app.
  pose proof (drop_last_app a "[*]") as Hdrop.
  change (String.length "[*]") with 3 in Hdrop.
  change (endswith "[*]" "[]") with false.
  change (endswith "[*]" "[0]") with false.
  cbv iota. now rewrite Hdrop.
Qed.

(** The suffix [[0]] is recognised, but only two characters are removed
    (scc.py line 189): the bracket stays in the attribute name. *)
Lemma array_marker_zero (a : string) :
  array_marker (a ++ "[0]") = (a ++ "[", true, false).
Proof.
  unfold array_marker.
  rewrite (endswith_app_tail a "[0]" "[]") by (simpl; lia).
  rewrite endswith_app.
  change (endswith "[0]" "[]") with false. cbv iota.
  replace (a ++ "[0]") with ((a ++ "[") ++ "0]")
    by (now rewrite app_assoc_string).
  pose proof (drop_last_app (a ++ "[") "0]") as Hdrop.
  change (String.length "0]") with 2 in Hdrop. now rewrite Hdrop.
Qed.

(** One step of [get_value] on a non-empty path. *)
Lemma get_value_step (obj : value) (path seg sep rest : string) :
  path <> "" ->
  partition "." path = (seg, sep, rest) ->
  get_value obj path =
    (got <- _get obj (fst (fst (array_marker seg))) ;;
     if snd (fst (array_marker seg)) then
       first <- py_getitem got 0 ;; get_value first rest
     else if snd (array_marker seg) then
       items <- py_iter got ;;
       out <- mapM (fun _obj => get_value _obj rest) items ;;
       Normal (VList out)
     else get_value got rest).
Proof.
  intros Hne Hp. destruct path as [|c s]; [congruence|].
  rewrite get_value_equation_2. cbv zeta. rewrite Hp. reflexivity.
Qed.

Lemma mapM_id (xs : list value) :
  mapM (fun x => get_value x "") xs = Normal xs.
Proof.
  induction xs as [|x xs IH]; simpl; [reflexivity|].
  rewrite get_value_equation_1. simpl. rewrite IH. reflexivity.
Qed.

Lemma app_not_empty (a b : string) : b <> "" -> a ++ b <> "".
Proof. destruct a; simpl; [auto | discriminate]. Qed.

(** [a[].rest] and [a[]]: the first element, then the rest of the path. *)
Lemma get_value_take_first (obj got : value) (a rest : string) :
  no_dot a = true ->
  _get obj a = Normal got ->
  get_value obj (a ++ "[]." ++ rest) =
    (first <- py_getitem got 0 ;; get_value first rest) /\
  get_value obj (a ++ "[]") =
    (first <- py_getitem got 0 ;; get_value first "").
Proof.
  intros Ha Hget. split.
  - rewrite (get_value_step obj _ (a ++ "[]") "." rest).
    + rewrite array_marker_take_first. simpl. rewrite Hget. reflexivity.
    + apply app_not_empty. discriminate.
    + replace (a ++ "[]." ++ rest) with ((a ++ "[]") ++ String "." rest)
        by (now rewrite app_assoc_string).
      apply partition_at_dot. rewrite no_dot_app, Ha. reflexivity.
  - rewrite (get_value_step obj _ (a ++ "[]") "" "").
    + rewrite array_marker_take_first. simpl. rewrite Hget. reflexivity.
    + apply app_not_empty. discriminate.
    + apply partition_no_dot. rewrite no_dot_app, Ha. reflexivity.
Qed.

(** [a[*].rest] and [a[*]]: one result per element. *)
Lemma get_value_fan_out (obj got : value) (a rest : string) :
  no_dot a = true ->
  _get obj a = Normal got ->
  get_value obj (a ++ "[*]." ++ rest) =
    (items <- py_iter got ;;
     out <- mapM (fun _obj => get_value _obj rest) items ;;
     Normal (VList out)) /\
  get_value obj (a ++ "[*]") =
    (items <- py_iter got ;; Normal (VList items)).
Proof.
  intros Ha Hget. split.
  - rewrite (get_value_step obj _ (a ++ "[*]") "." rest).
    + rewrite array_marker_fan_out. simpl. rewrite Hget. reflexivity.
    + apply app_not_empty. discriminate.
    + replace (a ++ "[*]." ++ rest) with ((a ++ "[*]") ++ String "." rest)
        by (now rewrite app_assoc_string).
      apply partition_at_dot. rewrite no_dot_app, Ha. reflexivity.
  - rewrite (get_value_step obj _ (a ++ "[*]") "" "").
    + rewrite array_marker_fan_out. simpl. rewrite Hget. simpl.
      destruct (py_iter got) as [items|e]; simpl; [|reflexivity].
      rewrite mapM_id. reflexivity.
    + apply app_not_empty. discriminate.
    + apply partition_no_dot. rewrite no_dot_app, Ha. reflexivity.
Qed.

End ResolverFacts.

(** ** Facts about [_get] *)

Lemma py_getattr_raises (obj : value) (name : string) (e : exn) :
  py_getattr obj name = Raise e -> e = AttributeError.
Proof.
  destruct obj; simpl;
    repeat match goal with
           | |- context [if ?b then _ else _] => destruct b
           | |- context [match ?o with Some _ => _ | None => _ end] => destruct o
           end; congruence.
Qed.

Lemma py_call_no_key_error (f : value) (arg : string) :
  py_call f arg <> Raise KeyError /\ py_call f arg <> Raise AttributeError.
Proof.
  destruct f as [| | | | | |self name]; simpl; try (split; congruence).
  destruct self; try (split; congruence).
  destruct (String.eqb name "get"); split; congruence.
Qed.

Lemma dict_has_get (d : list (string * value)) :
  py_getattr (VDict d) "get" = Normal (VMethod (VDict d) "get").
Proof. reflexivity. Qed.

Section GetFacts.
Context {inflection : Inflection}.

(** After the three attribute attempts, [_get] is the call of [get]. *)
Lemma _get_after_attributes (obj : value) (attr : string) :
  attribute_chain_exhausted obj attr ->
  _get obj attr =
    try_except (get <- py_getattr obj "get" ;; py_call get attr)
      [KeyError; AttributeError] (Raise KeyError).
Proof.
  intros (H1 & H2 & H3). unfold _get. rewrite H1. simpl.
  rewrite H2. simpl. rewrite H3. reflexivity.
Qed.

Lemma _get_mapping (d : list (string * value)) (attr : string) :
  attribute_chain_exhausted (VDict d) attr ->
  _get (VDict d) attr = Normal (dict_get d attr).
Proof.
  intros H. rewrite (_get_after_attributes _ _ H), dict_has_get. reflexivity.
Qed.

(** A path that is one plain name is one call of [_get]. *)
Lemma get_value_plain_name (obj : value) (attr : string) :
  plain_name attr = true -> get_value obj attr = _get obj attr.
Proof.
  unfold plain_name. intros H.
  repeat (apply andb_prop in H; destruct H as [H ?]).
  repeat match goal with
         | Hn : negb _ = true |- _ => apply negb_true_iff in Hn
         end.
  rewrite (get_value_step obj attr attr "" "").
  - unfold array_marker.
    repeat match goal with Hn : endswith _ _ = false |- _ => rewrite Hn end.
    simpl. destruct (_get obj attr); simpl; [|reflexivity].
    apply get_value_equation_1.
  - intros ->. discriminate.
  - now apply partition_no_dot.
Qed.

End GetFacts.

(** ** Facts about list comprehensions *)

Lemma mapM_normal_iff {A B : Type} (f : A -> result B) (xs : list A) (ys : list B) :
  mapM f xs = Normal ys <->
  List.length ys = List.length xs /\
  forall i x, nth_error xs i = Some x ->
              exists y, nth_error ys i = Some y /\ f x = Normal y.
Proof.
  revert ys. induction xs as [|x xs IH]; intros ys; simpl.
  - split.
    + intros H. injection H as <-. split; [reflexivity|].
      intros [|i] x Hx; discriminate.
    + intros [Hlen _]. destruct ys; [reflexivity | discriminate].
  - split.
    + destruct (f x) as [y|e] eqn:Hfx; simpl; [|discriminate].
      destruct (mapM f xs) as [ys'|e] eqn:Hm; simpl; [|discriminate].
      intros H. injection H as <-.
      destruct (proj1 (IH ys') eq_refl) as [Hlen Hnth].
      split; [simpl; now rewrite Hlen|].
      intros [|i] x0 Hx0; simpl in *.
      * injection Hx0 as <-. exists y. split; [reflexivity | assumption].
      * apply Hnth. assumption.
    + intros [Hlen Hnth]. destruct ys as [|y ys]; [discriminate|].
      destruct (Hnth 0 x eq_refl) as (y0 & Hy0 & Hfx). simpl in Hy0.
      injection Hy0 as <-. rewrite Hfx. simpl.
      assert (Hm : mapM f xs = Normal ys).
      { apply IH. split; [simpl in Hlen; lia|].
        intros i x0 Hx0. apply (Hnth (S i) x0 Hx0). }
      rewrite Hm. reflexivity.
Qed.

Section PathFacts.
Context {inflection : Inflection}.

(** A plain leading segment: the field, then the rest of the path. *)
Lemma get_value_plain_segment (obj : value) (p rest : string) :
  plain_name p = true ->
  get_value obj (p ++ "." ++ rest) = (got <- _get obj p ;; get_value got rest).
Proof.
  unfold plain_name. intros H.
  repeat (apply andb_prop in H; destruct H as [H ?]).
  repeat match goal with
         | Hn : negb _ = true |- _ => apply negb_true_iff in Hn
         end.
  rewrite (get_value_step obj _ p "." rest).
  - unfold array_marker.
    repeat match goal with Hn : endswith _ _ = false |- _ => rewrite Hn end.
    reflexivity.
  - apply app_not_empty. discriminate.
  - now apply partition_at_dot.
Qed.

(** [a[0].rest]: the field looked up is [a[], not [a]. *)
Lemma get_value_zero_marker (obj : value) (a rest : string) :
  no_dot a = true ->
  get_value obj (a ++ "[0]." ++ rest) =
    (got <- _get obj (a ++ "[") ;;
     first <- py_getitem got 0 ;; get_value first rest).
Proof.
  intros Ha. rewrite (get_value_step obj _ (a ++ "[0]") "." rest).
  - rewrite array_marker_zero. reflexivity.
  - apply app_not_empty. discriminate.
  - replace (a ++ "[0]." ++ rest) with ((a ++ "[0]") ++ String "." rest)
      by (now rewrite app_assoc_string).
    apply partition_at_dot. rewrite no_dot_app, Ha. reflexivity.
Qed.

End PathFacts.

(** ** The model on the examples of the documentation *)

Example underscore_examples :
  inflection_underscore "resourceFolderDisplayName"
    = "resource_folder_display_name" /\
  inflection_underscore "HTTPResponse-code" = "http_response_code" /\
  inflection_underscore "resource_name" = "resource_name".
Proof. repeat split; reflexivity. Qed.

Example camelize_examples :
  inflection_camelize "resource_folder_display_name" false
    = Normal "resourceFolderDisplayName" /\
  inflection_camelize "resource_folder_display_name" true
    = Normal "ResourceFolderDisplayName" /\
  inflection_camelize "" false = Raise IndexError.
Proof. repeat split; reflexivity. Qed.

Example string_examples :
  partition "." "finding.source_properties.abuse_target_ips"
    = ("finding", ".", "source_properties.abuse_target_ips") /\
  partition "." "name" = ("name", "", "") /\
  split "/" "folders/456" = ["folders"; "456"] /\
  endswith "folders[*]" "[*]" = true /\
  drop_last 3 "folders[*]" = "folders".
Proof. repeat split; reflexivity. Qed.

(** A message with snake_case fields answers a camelCase path; a decoded
    JSON object is looked up by the original name only. *)
Example naming_examples :
  get_value example_message "resourceName"
    = Normal (VStr "//storage.googleapis.com/bucket") /\
  get_value example_json "resourceName"
    = Normal (VStr "//storage.googleapis.com/bucket") /\
  get_value example_json "resource_name" = Normal VNone /\
  get_value example_json "keys" = Normal (VMethod example_json "keys").
Proof. repeat split; reflexivity. Qed.

(** ** Properties of the resolvers (scc.py) *)

(** C6: for every record [r], [get_value(r, "")] returns [r] itself,
    unchanged: the empty path is the base case of the recursion. *)
Theorem get_value_empty_path (inflection : Inflection) (r : value) :
  get_value r "" = Normal r.
Proof. apply get_value_equation_1. Qed.

(** C7: when the field named by a take-first segment (marker [[]]) is an
    empty sequence, [get_value] raises [IndexError], whether the segment ends
    the path or not; the exception reaches the caller of [get_value] as it is,
    also from below an enclosing plain segment. *)
Theorem take_first_of_empty_raises (inflection : Inflection)
    (r : value) (a rest : string) :
  no_dot a = true ->
  _get r a = Normal (VList []) ->
  get_value r (a ++ "[]") = Raise IndexError /\
  get_value r (a ++ "[]." ++ rest) = Raise IndexError /\
  forall (outer : value) (p : string),
    plain_name p = true ->
    _get outer p = Normal r ->
    get_value outer (p ++ "." ++ a ++ "[]." ++ rest) = Raise IndexError.
Proof.
  intros Ha Hget.
  destruct (get_value_take_first r (VList []) a rest Ha Hget) as [Hrest Hlast].
  assert (Hinner : get_value r (a ++ "[]." ++ rest) = Raise IndexError)
    by (rewrite Hrest; reflexivity).
  repeat split.
  - rewrite Hlast. reflexivity.
  - exact Hinner.
  - intros outer p Hp Houter.
    rewrite (get_value_plain_segment outer p _ Hp), Houter.
    unfold bind. exact Hinner.
Qed.

Lemma take_first_of_empty_raises_witness :
  no_dot "a" = true /\
  _get (VObj [("a", VList [])]) "a" = Normal (VList []) /\
  get_value (VObj [("a", VList [])]) "a[]" = Raise IndexError /\
  get_value (VObj [("a", VList [])]) "a[].b" = Raise IndexError.
Proof.
  split; [reflexivity|]. split; [reflexivity|].
  pose proof (take_first_of_empty_raises ascii_inflection
                (VObj [("a", VList [])]) "a" "b" eq_refl eq_refl)
    as (H1 & H2 & _).
  split; [exact H1 | exact H2].
Defined.

(** C4: when the field [a] of [r] is a sequence [xs], [get_value(r, "a[*]")]
    returns the elements of [xs] unchanged, one result per element, and
    [get_value(r, "a[*].rest")] returns a sequence of the length of [xs]
    whose i-th element is [get_value(xs[i], "rest")]. *)
Theorem fan_out_one_result_per_element (inflection : Inflection)
    (r : value) (a rest : string) (xs : list value) :
  no_dot a = true ->
  _get r a = Normal (VList xs) ->
  get_value r (a ++ "[*]") = Normal (VList xs) /\
  forall v : value,
    get_value r (a ++ "[*]." ++ rest) = Normal v <->
    exists ys : list value,
      v = VList ys /\
      List.length ys = List.length xs /\
      forall i x, nth_error xs i = Some x ->
                  exists y, nth_error ys i = Some y /\
                            get_value x rest = Normal y.
Proof.
  intros Ha Hget.
  destruct (get_value_fan_out r (VList xs) a rest Ha Hget) as [Hrest Hlast].
  split; [rewrite Hlast; reflexivity|].
  intros v. rewrite Hrest. simpl. split.
  - destruct (mapM (fun _obj => get_value _obj rest) xs) as [ys|e] eqn:Hm;
      simpl; [|discriminate].
    intros H. injection H as <-. exists ys. split; [reflexivity|].
    now apply mapM_normal_iff.
  - intros (ys & -> & Hys).
    apply (mapM_normal_iff (fun _obj => get_value _obj rest)) in Hys.
    rewrite Hys. reflexivity.
Qed.

Lemma fan_out_one_result_per_element_witness :
  no_dot "a" = true /\
  _get example_record "a"
    = Normal (VList [VObj [("b", VInt 1)]; VObj [("b", VInt 2)]]) /\
  get_value example_record "a[*]"
    = Normal (VList [VObj [("b", VInt 1)]; VObj [("b", VInt 2)]]) /\
  get_value example_record "a[*].b" = Normal (VList [VInt 1; VInt 2]).
Proof.
  split; [reflexivity|]. split; [reflexivity|].
  pose proof (fan_out_one_result_per_element ascii_inflection example_record
                "a" "b" [VObj [("b", VInt 1)]; VObj [("b", VInt 2)]]
                eq_refl eq_refl) as [Hall Heach].
  split; [exact Hall|].
  apply Heach. exists [VInt 1; VInt 2].
  split; [reflexivity|]. split; [reflexivity|].
  intros [|[|[|i]]] x Hx; simpl in Hx; try discriminate;
    injection Hx as <-; eexists; (split; [reflexivity|]); reflexivity.
Defined.

(** C1: on a record whose field [a] is a non-empty sequence, [a[].b] gives
    the field [b] of the first element, but [a[0].b] does not: the code
    removes two characters of the three of [[0]] and looks up a field named
    [a[], which the record does not have. *)
Theorem zero_marker_is_not_take_first :
  get_value example_record "a[].b" = Normal (VInt 1) /\
  get_value (VObj [("b", VInt 1)]) "b" = Normal (VInt 1) /\
  array_marker "a[0]" = ("a[", true, false) /\
  get_value example_record "a[0].b" = Raise KeyError /\
  get_value (VDict [("a", VList [VDict [("b", VInt 1)]])]) "a[].b"
    = Normal (VInt 1) /\
  get_value (VDict [("a", VList [VDict [("b", VInt 1)]])]) "a[0].b"
    = Raise TypeError.
Proof. repeat split; reflexivity. Qed.

(** C3: a mapping exposes the name [b] under none of the four strategies,
    and [_get], and [get_value] on the path [b], return [None] without
    raising [KeyError]. *)
Theorem absent_key_of_mapping_is_not_an_error :
  AttributeResolver_resolve example_mapping "b" "b" "b" = None /\
  underscore "b" = Normal "b" /\
  camelize "b" false = Normal "b" /\
  _get example_mapping "b" = Normal VNone /\
  get_value example_mapping "b" = Normal VNone.
Proof. repeat split; reflexivity. Qed.

(** C5: [_get] follows the resolution order exact attribute, snake_case
    attribute, camelCase attribute, key lookup with the original name, and
    stops at the first success: whenever one of the four namings exposes the
    field, [_get] returns the value of the first that does. *)
Theorem get_follows_resolution_order (inflection : Inflection)
    (record : value) (attr u c : string) (v : value) :
  underscore attr = Normal u ->
  camelize attr false = Normal c ->
  AttributeResolver_resolve record attr u c = Some v ->
  _get record attr = Normal v.
Proof.
  intros Hu Hc. unfold AttributeResolver_resolve, tryGetAttribute, _get.
  rewrite Hu, Hc. simpl.
  destruct (py_getattr record attr) as [v1|e1] eqn:H1; simpl.
  { intros H. now injection H as <-. }
  apply py_getattr_raises in H1 as ->. simpl.
  destruct (py_getattr record u) as [v2|e2] eqn:H2; simpl.
  { intros H. now injection H as <-. }
  apply py_getattr_raises in H2 as ->. simpl.
  destruct (py_getattr record c) as [v3|e3] eqn:H3; simpl.
  { intros H. now injection H as <-. }
  apply py_getattr_raises in H3 as ->. simpl.
  destruct record as [| | | |d| |]; simpl; try discriminate.
  unfold dict_get. destruct (assoc attr d) as [w|]; [|discriminate].
  intros H. now injection H as <-.
Qed.

Lemma get_follows_resolution_order_witness :
  underscore "resourceName" = Normal "resource_name" /\
  camelize "resourceName" false = Normal "resourceName" /\
  AttributeResolver_resolve example_message
    "resourceName" "resource_name" "resourceName"
    = Some (VStr "//storage.googleapis.com/bucket") /\
  _get example_message "resourceName"
    = Normal (VStr "//storage.googleapis.com/bucket").
Proof.
  split; [reflexivity|]. split; [reflexivity|]. split; [reflexivity|].
  apply (get_follows_resolution_order ascii_inflection example_message
           "resourceName" "resource_name" "resourceName");
    reflexivity.
Defined.

(** C10: on a mapping, once the three attribute attempts have failed, [_get]
    returns what the mapping's [get] returns, which is [None] for an absent
    key, and so does [get_value] on that name; [_get] raises [KeyError] only
    for an object that has no [get] attribute. *)
Theorem mapping_lookup_defaults_to_none (inflection : Inflection)
    (obj : value) (attr : string) :
  attribute_chain_exhausted obj attr ->
  (forall d, obj = VDict d ->
     _get obj attr = Normal (dict_get d attr) /\
     (assoc attr d = None ->
        _get obj attr = Normal VNone /\
        (plain_name attr = true -> get_value obj attr = Normal VNone))) /\
  (_get obj attr = Raise KeyError <->
   py_getattr obj "get" = Raise AttributeError).
Proof.
  intros Hex. split.
  - intros d ->. pose proof (_get_mapping d attr Hex) as Hget.
    split; [exact Hget|].
    intros Habs. unfold dict_get in Hget. rewrite Habs in Hget.
    split; [exact Hget|].
    intros Hplain. now rewrite (get_value_plain_name _ _ Hplain).
  - rewrite (_get_after_attributes _ _ Hex).
    destruct (py_getattr obj "get") as [f|e] eqn:Hf; simpl.
    + destruct (py_call_no_key_error f attr) as [Hk Ha].
      destruct (py_call f attr) as [w|e]; simpl.
      * split; discriminate.
      * destruct e; simpl; try (split; discriminate); congruence.
    + apply py_getattr_raises in Hf as ->. simpl. split; reflexivity.
Qed.

Lemma mapping_lookup_defaults_to_none_witness :
  attribute_chain_exhausted example_mapping "b" /\
  assoc "b" [("a", VInt 1)] = None /\
  plain_name "b" = true /\
  _get example_mapping "b" = Normal VNone /\
  get_value example_mapping "b" = Normal VNone.
Proof.
  assert (Hex : attribute_chain_exhausted example_mapping "b")
    by (repeat split; reflexivity).
  split; [exact Hex|]. split; [reflexivity|]. split; [reflexivity|].
  destruct (mapping_lookup_defaults_to_none ascii_inflection
              example_mapping "b" Hex) as [Hmap _].
  destruct (Hmap [("a", VInt 1)] eq_refl) as [_ Hnone].
  destruct (Hnone eq_refl) as [Hget Hpath].
  split; [exact Hget | exact (Hpath eq_refl)].
Defined.

(** ** Facts about the hierarchy walk (classes.py) *)

Section WalkFacts.
Context {client : SecurityCenterClient}.

Lemma climb_at_parent (fuel : nat) (a : Asset) (gcp_org_id : string) :
  is_parent a = true -> climb fuel a gcp_org_id = Some (Normal a).
Proof. intros H. destruct fuel; simpl; now rewrite H. Qed.

Lemma climb_reaches (gcp_org_id : string) (k : nat) (a t : Asset) :
  reaches gcp_org_id k a t ->
  forall fuel, k <= fuel -> climb fuel a gcp_org_id = Some (Normal t).
Proof.
  induction 1 as [a Ha | k a p t Ha Hp _ IH]; intros fuel Hle.
  - now apply climb_at_parent.
  - destruct fuel as [|fuel]; [lia|].
    simpl. rewrite Ha, Hp. apply IH. lia.
Qed.

Lemma climb_stops (gcp_org_id : string) (a : Asset) :
  (exists fuel out, climb fuel a gcp_org_id = Some out) <-> stops gcp_org_id a.
Proof.
  split.
  - intros (fuel & out & H). revert a out H.
    induction fuel as [|fuel IH]; intros a out; simpl;
      destruct (is_parent a) eqn:Ha; intros H;
      try (now apply stops_parent); try discriminate.
    destruct (get_asset _ gcp_org_id) as [p|e] eqn:Hp.
    + apply (stops_up _ a p Ha Hp). now apply (IH p out).
    + now apply (stops_error _ a e).
  - induction 1 as [a Ha | a e Ha He | a p Ha Hp _ (fuel & out & IH)].
    + exists 0, (Normal a). now apply climb_at_parent.
    + exists 1, (Raise e). simpl. now rewrite Ha, He.
    + exists (S fuel), out. simpl. now rewrite Ha, Hp.
Qed.

(** The owners accumulator of the folder branch is never bound by the loop. *)
Lemma collect_owners_unbound (iam_bindings : list value) (o : option (list value)) :
  collect_owners iam_bindings None = Normal o -> o = None.
Proof.
  induction iam_bindings as [|binding tl IH]; simpl.
  - intros H. now injection H as <-.
  - destruct (py_subscript binding "role") as [role|e]; simpl; [|discriminate].
    destruct (in_strings role owner_roles); simpl; [discriminate | exact IH].
Qed.

Lemma folder_extraction_never_returns (a : Asset) (r : value * list value) :
  _extract_parent_info_folder a <> Normal r.
Proof.
  unfold _extract_parent_info_folder.
  destruct (if dict_contains "folderId" (resource_properties a) then _ else _)
    as [id_num|e]; simpl; [|discriminate].
  destruct (json_loads (policy_blob (iam_policy a))) as [policy|e]; simpl;
    [|discriminate].
  destruct (py_get_or_none policy "bindings") as [iam_bindings|e]; simpl;
    [|discriminate].
  destruct (truthy iam_bindings); simpl; [|discriminate].
  destruct (py_iter iam_bindings) as [bindings|e]; simpl; [|discriminate].
  destruct (collect_owners bindings None) as [o|e] eqn:Ho; simpl; [|discriminate].
  apply collect_owners_unbound in Ho as ->. simpl. discriminate.
Qed.

End WalkFacts.

Lemma cyclic_walk_keeps_running (fuel : nat) :
  @climb (inventory_client example_inventory) fuel example_cyclic "1" = None.
Proof. induction fuel as [|fuel IH]; [reflexivity | exact IH]. Qed.

(** ** Properties of the parent resolution (classes.py) *)

(** C9: when the walk from [resource] ends at a project asset, after any
    number [k] of parent lookups, [_get_parent_info] returns that asset's
    display name, its type (the project type), its resource name, the
    [projectNumber] entry of its resource properties as identifier and its
    recorded [resource_owners] as owners, and [FindingParentInfo] holds the
    same five values. *)
Theorem project_parent_info (client : SecurityCenterClient)
    (resource gcp_org_id : string) (start project : Asset) (k : nat) :
  get_asset resource gcp_org_id = Normal start ->
  reaches gcp_org_id k start project ->
  resource_type (security_center_properties project)
    = "google.cloud.resourcemanager.Project" ->
  forall fuel, k <= fuel ->
    _get_parent_info fuel resource gcp_org_id =
      Some (Normal
              (resource_display_name (security_center_properties project),
               "google.cloud.resourcemanager.Project",
               resource_name (security_center_properties project),
               dict_get (resource_properties project) "projectNumber",
               map VStr (resource_owners (security_center_properties project))))
    /\
    FindingParentInfo_init fuel resource gcp_org_id =
      Some (Normal
              {| displayName :=
                   resource_display_name (security_center_properties project);
                 type := "google.cloud.resourcemanager.Project";
                 resourceName :=
                   resource_name (security_center_properties project);
                 idNum := dict_get (resource_properties project) "projectNumber";
                 owners :=
                   map VStr
                     (resource_owners (security_center_properties project)) |}).
Proof.
  intros Hstart Hreach Htype fuel Hle.
  assert (Hinfo : _get_parent_info fuel resource gcp_org_id =
      Some (Normal
              (resource_display_name (security_center_properties project),
               "google.cloud.resourcemanager.Project",
               resource_name (security_center_properties project),
               dict_get (resource_properties project) "projectNumber",
               map VStr (resource_owners (security_center_properties project))))).
  { unfold _get_parent_info. rewrite Hstart.
    rewrite (climb_reaches _ _ _ _ Hreach fuel Hle).
    unfold describe_parent. rewrite Htype. reflexivity. }
  split; [exact Hinfo|].
  unfold FindingParentInfo_init. rewrite Hinfo. reflexivity.
Qed.

Lemma project_parent_info_witness :
  @FindingParentInfo_init (inventory_client example_inventory) 1
    "//compute.googleapis.com/projects/my-project/zones/us-central1-a/instances/vm-1"
    "1"
  = Some (Normal
            {| displayName := "my-project";
               type := "google.cloud.resourcemanager.Project";
               resourceName :=
                 "//cloudresourcemanager.googleapis.com/projects/123123";
               idNum := VInt 123123;
               owners := [VStr "user:alice@example.com";
                          VStr "user:bob@example.com"] |}).
Proof.
  refine (proj2 (project_parent_info (inventory_client example_inventory)
                   _ "1" example_instance example_project 1 _ _ _ 1 _)).
  - reflexivity.
  - apply (@reaches_up (inventory_client example_inventory) "1" 0
             example_instance example_project example_project);
      [reflexivity | reflexivity |].
    apply reaches_here. reflexivity.
  - reflexivity.
  - apply le_n.
Defined.

(** C2: the folder branch returns no owners at all.  For the folder whose
    policy grants [folderAdmin] to alice and bob and [owner] to bob and carol,
    and for the folder without bindings, it reads the local variable [owners]
    before any assignment and raises [UnboundLocalError], and so does the walk
    that ends at the folder; on no asset does the branch return a result. *)
Theorem folder_owners_are_never_returned :
  _extract_parent_info_folder example_folder = Raise UnboundLocalError /\
  _extract_parent_info_folder example_folder_no_bindings
    = Raise UnboundLocalError /\
  @FindingParentInfo_init (inventory_client example_inventory) 1
    "//compute.googleapis.com/projects/p/zones/z/instances/vm-2" "1"
    = Some (Raise UnboundLocalError) /\
  forall (a : Asset) (r : value * list value),
    _extract_parent_info_folder a <> Normal r.
Proof.
  repeat split; try reflexivity. apply folder_extraction_never_returns.
Qed.

(** C8, as stated, at a cyclic hierarchy: the walk from an asset that is its
    own parent never returns, neither with a result nor with an exception. *)
Lemma cyclic_walk_does_not_terminate :
  ~ @walk_terminates (inventory_client example_inventory)
      "//compute.googleapis.com/projects/p/zones/z/disks/d" "1".
Proof.
  intros (fuel & out & H). unfold _get_parent_info in H.
  change (get_asset "//compute.googleapis.com/projects/p/zones/z/disks/d" "1")
    with (@Normal Asset example_cyclic) in H.
  cbv iota in H. rewrite cyclic_walk_keeps_running in H. discriminate.
Qed.

(** C8, amended: the walk has no depth limit and no cycle check.  It returns
    exactly when the first lookup raises, or the chain of [resource_parent]
    lookups stops at a project, folder or organization or at a lookup that
    raises. *)
Theorem walk_terminates_iff_chain_stops (client : SecurityCenterClient)
    (resource gcp_org_id : string) :
  walk_terminates resource gcp_org_id <->
  (exists e, get_asset resource gcp_org_id = Raise e) \/
  (exists a, get_asset resource gcp_org_id = Normal a /\ stops gcp_org_id a).
Proof.
  unfold walk_terminates, _get_parent_info. split.
  - intros (fuel & out & H).
    destruct (get_asset resource gcp_org_id) as [a|e] eqn:Ha.
    + right. exists a. split; [reflexivity|].
      apply climb_stops. exists fuel.
      destruct (climb fuel a gcp_org_id) as [r|]; [|discriminate].
      now exists r.
    + left. now exists e.
  - intros [(e & He) | (a & Ha & Hstop)].
    + rewrite He. now exists 0, (Raise e).
    + rewrite Ha. apply climb_stops in Hstop as (fuel & r & Hr).
      exists fuel. rewrite Hr. destruct r as [t|e]; eauto.
Qed.

Lemma walk_terminates_iff_chain_stops_witness :
  @walk_terminates (inventory_client example_inventory)
    "//compute.googleapis.com/projects/my-project/zones/us-central1-a/instances/vm-1"
    "1".
Proof.
  apply (proj2 (walk_terminates_iff_chain_stops
                  (inventory_client example_inventory) _ "1")).
  right. exists example_instance. split; [reflexivity|].
  apply (@stops_up (inventory_client example_inventory) "1"
           example_instance example_project); [reflexivity | reflexivity |].
  apply stops_parent. reflexivity.
Defined.

(** ** Further facts about exceptions, strings and comprehensions *)

Lemma exn_eqb_eq (a b : exn) : exn_eqb a b = true <-> a = b.
Proof.
  destruct a, b; simpl; split; try congruence; try reflexivity.
  - intros H. apply String.eqb_eq in H. now subst.
  - intros H. injection H as ->. apply String.eqb_refl.
Qed.

Lemma try_except_raise {A : Type} (body handler : result A)
    (caught : list exn) (e : exn) :
  try_except body caught handler = Raise e ->
  (body = Raise e /\ existsb (exn_eqb e) caught = false) \/ handler = Raise e.
Proof.
  unfold try_except. destruct body as [v|e']; [discriminate|].
  destruct (existsb (exn_eqb e') caught) eqn:Hc; intros H.
  - now right.
  - injection H as <-. now left.
Qed.

Lemma py_getitem_raises (obj : value) (i : nat) (e : exn) :
  py_getitem obj i = Raise e -> e = IndexError \/ e = KeyError \/ e = TypeError.
Proof.
  destruct obj; simpl;
    repeat match goal with
           | |- context [match ?o with Some _ => _ | None => _ end] => destruct o
           end; intros H; try discriminate; injection H as <-; auto.
Qed.

Lemma py_iter_raises (obj : value) (e : exn) :
  py_iter obj = Raise e -> e = TypeError.
Proof. destruct obj; simpl; congruence. Qed.

Lemma mapM_raise {A B : Type} (f : A -> result B) (l : list A) (e : exn) :
  mapM f l = Raise e -> exists x, In x l /\ f x = Raise e.
Proof.
  induction l as [|x l IH]; simpl; [discriminate|].
  destruct (f x) as [y|e'] eqn:Hx; simpl.
  - destruct (mapM f l) as [ys|e'']; simpl; [discriminate|].
    intros H. injection H as ->.
    destruct (IH eq_refl) as (x' & Hin & Hx'). exists x'. auto.
  - intros H. injection H as ->. exists x. auto.
Qed.

Lemma mapM_ext {A B : Type} (f g : A -> result B) (l : list A) :
  (forall x, f x = g x) -> mapM f l = mapM g l.
Proof.
  intros H. induction l as [|x l IH]; simpl; [reflexivity|].
  now rewrite H, IH.
Qed.

Lemma bind_normal {A : Type} (r : result A) : (v <- r ;; Normal v) = r.
Proof. now destruct r. Qed.

Lemma partition_spec (sep : ascii) (s h m t : string) :
  partition sep s = (h, m, t) ->
  s = h ++ m ++ t /\
  ((m = String sep "") \/ (m = "" /\ t = "")).
Proof.
  revert h m t. induction s as [|c s IH]; simpl; intros h m t H.
  - injection H as <- <- <-. auto.
  - destruct (Ascii.eqb c sep) eqn:Hc.
    + apply Ascii.eqb_eq in Hc. subst c. injection H as <- <- <-. auto.
    + destruct (partition sep s) as [[h' m'] t'].
      injection H as <- <- <-.
      destruct (IH h' m' t' eq_refl) as [-> Hm]. auto.
Qed.

Lemma partition_tail_length (sep : ascii) (s h m t : string) :
  s <> "" -> partition sep s = (h, m, t) -> String.length t < String.length s.
Proof.
  intros Hne Hp. destruct (partition_spec sep s h m t Hp) as [-> [-> | [-> ->]]].
  - rewrite !length_app. simpl. lia.
  - simpl. destruct h; [contradiction|]. simpl. lia.
Qed.

(** ** Further properties of the resolvers (scc.py) *)

Section NoAttributeError.
Context {inflection : Inflection}.

Lemma _get_no_attribute_error (obj : value) (attr : string) :
  _get obj attr <> Raise AttributeError.
Proof.
  unfold _get. intros H.
  repeat match type of H with
         | try_except _ _ _ = Raise _ =>
             apply try_except_raise in H; destruct H as [[_ H] | H];
             [simpl in H; discriminate|]
         end.
  discriminate.
Qed.

Lemma get_value_no_attribute_error_upto (n : nat) :
  forall (path : string) (obj : value),
    String.length path < n -> get_value obj path <> Raise AttributeError.
Proof.
  induction n as [|n IH]; intros path obj Hlen; [lia|].
  destruct path as [|c s].
  { rewrite get_value_equation_1. discriminate. }
  destruct (partition "." (String c s)) as [[seg sep] rest] eqn:Hp.
  assert (Hshort : String.length rest < n).
  { pose proof (partition_tail_length "." (String c s) seg sep rest
                  ltac:(discriminate) Hp). lia. }
  rewrite (get_value_step obj (String c s) seg sep rest ltac:(discriminate) Hp).
  destruct (_get obj _) as [got|e] eqn:Hget; simpl.
  2: { intros H. injection H as ->. now apply _get_no_attribute_error in Hget. }
  destruct (snd (fst (array_marker seg))).
  - destruct (py_getitem got 0) as [first|e] eqn:Hitem; simpl.
    + now apply IH.
    + intros H. injection H as ->.
      apply py_getitem_raises in Hitem as [H|[H|H]]; discriminate.
  - destruct (snd (array_marker seg)); [|now apply IH].
    destruct (py_iter got) as [items|e] eqn:Hiter; simpl.
    + destruct (mapM _ items) as [out|e] eqn:Hm; simpl; [discriminate|].
      intros H. injection H as ->.
      apply mapM_raise in Hm as (x & _ & Hx). revert Hx. now apply IH.
    + intros H. injection H as ->. apply py_iter_raises in Hiter. discriminate.
Qed.

End NoAttributeError.

(** X1: whatever the object, the path and the inflection functions do,
    [_get] and [get_value] never raise [AttributeError]: a failed attribute
    access is either recovered or reported as [KeyError]. *)
Theorem resolvers_never_raise_attribute_error (inflection : Inflection)
    (obj : value) (path : string) :
  _get obj path <> Raise AttributeError /\
  get_value obj path <> Raise AttributeError.
Proof.
  split.
  - apply _get_no_attribute_error.
  - apply (get_value_no_attribute_error_upto (S (String.length path))). lia.
Qed.

Lemma mapM_first_raise {A B : Type} (f : A -> result B)
    (pre post : list A) (x : A) (e : exn) :
  Forall (fun p => exists y, f p = Normal y) pre ->
  f x = Raise e ->
  mapM f (pre ++ x :: post) = Raise e.
Proof.
  intros Hpre Hx. induction Hpre as [|p pre (y & Hy) _ IH]; simpl.
  - now rewrite Hx.
  - now rewrite Hy, IH.
Qed.

Lemma mapM_Forall2 {A B : Type} (f : A -> result B) (xs : list A) (ys : list B) :
  Forall2 (fun x y => f x = Normal y) xs ys -> mapM f xs = Normal ys.
Proof.
  induction 1 as [|x y xs ys Hxy _ IH]; simpl; [reflexivity|].
  now rewrite Hxy, IH.
Qed.

Lemma string_app_nil (s : string) : s ++ "" = s.
Proof. induction s as [|c s IH]; simpl; [reflexivity | now rewrite IH]. Qed.

Lemma partition_head_no_dot (s h m t : string) :
  partition "." s = (h, m, t) -> no_dot h = true.
Proof.
  revert h m t. induction s as [|c s IH]; simpl; intros h m t H.
  - now injection H as <- <- <-.
  - destruct (Ascii.eqb c ".") eqn:Hc.
    + now injection H as <- <- <-.
    + destruct (partition "." s) as [[h' m'] t'].
      injection H as <- <- <-. simpl. rewrite Hc. simpl.
      now apply (IH h' m' t').
Qed.

Lemma mem_string_In (s : string) (l : list string) :
  mem_string s l = true -> In s l.
Proof.
  unfold mem_string. intros H. apply existsb_exists in H as (x & Hin & Hx).
  apply String.eqb_eq in Hx. now subst.
Qed.

Section PathProperties.
Context {inflection : Inflection}.

Lemma get_each_dotted (names : list string) :
  Forall (fun n => plain_name n = true) names ->
  forall obj, get_value obj (dotted names) = get_each obj names.
Proof.
  unfold dotted. induction 1 as [|n tl Hn _ IH]; intros obj.
  - apply get_value_equation_1.
  - destruct tl as [|n2 tl].
    + simpl. rewrite (get_value_plain_name _ _ Hn). symmetry. apply bind_normal.
    + change (join "." (n :: n2 :: tl)) with (n ++ "." ++ join "." (n2 :: tl)).
      rewrite (get_value_plain_segment obj n _ Hn).
      change (get_each obj (n :: n2 :: tl))
        with (got <- _get obj n ;; get_each got (n2 :: tl)).
      destruct (_get obj n) as [got|e]; simpl; [apply IH | reflexivity].
Qed.

(** A segment whose lookup fails ends the resolution with that exception. *)
Lemma get_value_segment_raises (obj : value) (seg : string) (e : exn) :
  no_dot seg = true ->
  seg <> "" ->
  _get obj (fst (fst (array_marker seg))) = Raise e ->
  get_value obj seg = Raise e /\
  forall rest, get_value obj (seg ++ "." ++ rest) = Raise e.
Proof.
  intros Hdot Hne Hget. split; [|intros rest].
  - rewrite (get_value_step obj seg seg "" "" Hne (partition_no_dot _ Hdot)).
    now rewrite Hget.
  - rewrite (get_value_step obj _ seg "." rest).
    + now rewrite Hget.
    + apply app_not_empty. discriminate.
    + now apply partition_at_dot.
Qed.

Lemma trailing_dot_upto (n : nat) :
  forall path : string,
    String.length path < n ->
    path <> "" ->
    endswith path "." = false ->
    forall obj, get_value obj (path ++ ".") = get_value obj path.
Proof.
  induction n as [|n IH]; intros path Hlen Hne Hend obj; [lia|].
  destruct (partition "." path) as [[seg sep] rest] eqn:Hp.
  pose proof (partition_head_no_dot _ _ _ _ Hp) as Hseg.
  pose proof (partition_tail_length "." _ _ _ _ Hne Hp) as Hshort.
  destruct (partition_spec "." _ _ _ _ Hp) as [Hpath [-> | [-> ->]]].
  - assert (Hrest : rest <> "").
    { intros ->. rewrite Hpath in Hend.
      change (seg ++ "." ++ "") with (seg ++ ".") in Hend.
      rewrite endswith_app in Hend. discriminate. }
    assert (Hrest_end : endswith rest "." = false).
    { rewrite Hpath in Hend.
      replace (seg ++ "." ++ rest) with ((seg ++ ".") ++ rest) in Hend
        by (now rewrite app_assoc_string).
      rewrite endswith_app_tail in Hend; [exact Hend|].
      destruct rest; [contradiction | simpl; lia]. }
    assert (Hp' : partition "." (path ++ ".") = (seg, ".", rest ++ ".")).
    { rewrite Hpath.
      replace ((seg ++ "." ++ rest) ++ ".") with (seg ++ String "." (rest ++ "."))
        by (now rewrite app_assoc_string).
      now apply partition_at_dot. }
    rewrite (get_value_step obj _ _ _ _ (app_not_empty path "." ltac:(discriminate)) Hp').
    rewrite (get_value_step obj _ _ _ _ Hne Hp).
    assert (Hsame : forall o, get_value o (rest ++ ".") = get_value o rest)
      by (intros o; apply IH; [lia | assumption | assumption]).
    destruct (_get obj _) as [got|e]; simpl; [|reflexivity].
    destruct (snd (fst (array_marker seg))).
    + destruct (py_getitem got 0); simpl; [apply Hsame | reflexivity].
    + destruct (snd (array_marker seg)); [|apply Hsame].
      destruct (py_iter got) as [items|e]; simpl; [|reflexivity].
      now rewrite (mapM_ext _ _ items Hsame).
  - simpl in Hpath. rewrite string_app_nil in Hpath. subst seg.
    rewrite (get_value_step obj _ path "." "").
    + now rewrite (get_value_step obj path path "" "" Hne Hp).
    + apply app_not_empty. discriminate.
    + now apply partition_at_dot.
Qed.

End PathProperties.

(** X2: a dotted path of plain field names is resolved by successive [_get]
    calls, each on the value the previous one returned. *)
Theorem dotted_path_is_successive_gets (inflection : Inflection)
    (obj : value) (names : list string) :
  Forall (fun n => plain_name n = true) names ->
  get_value obj (dotted names) = get_each obj names.
Proof. intros H. now apply get_each_dotted. Qed.

Lemma dotted_path_is_successive_gets_witness :
  Forall (fun n => plain_name n = true)
    ["finding"; "sourceProperties"; "sourceId"; "projectNumber"] /\
  get_value example_notification "finding.sourceProperties.sourceId.projectNumber"
    = Normal (VStr "123123").
Proof.
  assert (H : Forall (fun n => plain_name n = true)
                ["finding"; "sourceProperties"; "sourceId"; "projectNumber"])
    by (repeat constructor).
  split; [exact H|].
  exact (eq_trans
           (dotted_path_is_successive_gets ascii_inflection
              example_notification _ H)
           eq_refl).
Defined.

(** X3: in a fan-out, the first element whose resolution raises ends the
    whole resolution with that exception; no partial list is returned. *)
Theorem fan_out_raises_first_failure (inflection : Inflection)
    (r x : value) (a rest : string) (pre post : list value) (e : exn) :
  no_dot a = true ->
  _get r a = Normal (VList (pre ++ x :: post)) ->
  Forall (fun p => exists y, get_value p rest = Normal y) pre ->
  get_value x rest = Raise e ->
  get_value r (a ++ "[*]." ++ rest) = Raise e.
Proof.
  intros Ha Hget Hpre Hx.
  destruct (get_value_fan_out r _ a rest Ha Hget) as [-> _]. simpl.
  now rewrite (mapM_first_raise (fun _obj => get_value _obj rest) pre post x e).
Qed.

Lemma fan_out_raises_first_failure_witness :
  get_value
    (VObj [("a", VList [VObj [("b", VInt 1)]; VObj [("c", VInt 2)];
                        VObj [("b", VInt 3)]])])
    "a[*].b"
  = Raise KeyError.
Proof.
  apply (fan_out_raises_first_failure ascii_inflection _
           (VObj [("c", VInt 2)]) "a" "b"
           [VObj [("b", VInt 1)]] [VObj [("b", VInt 3)]] KeyError);
    try reflexivity.
  repeat constructor. exists (VInt 1). reflexivity.
Defined.

(** X4: when the field [a] is a non-empty list, the take-first segment [a[]]
    gives its first element and [a[].rest] resolves the rest of the path on
    that element; the other elements play no part. *)
Theorem take_first_uses_first_element (inflection : Inflection)
    (r x : value) (xs : list value) (a rest : string) :
  no_dot a = true ->
  _get r a = Normal (VList (x :: xs)) ->
  get_value r (a ++ "[]") = Normal x /\
  get_value r (a ++ "[]." ++ rest) = get_value x rest.
Proof.
  intros Ha Hget.
  destruct (get_value_take_first r _ a rest Ha Hget) as [Hrest Hlast].
  split.
  - rewrite Hlast. simpl. apply get_value_equation_1.
  - rewrite Hrest. reflexivity.
Qed.

Lemma take_first_uses_first_element_witness :
  get_value example_record "a[]" = Normal (VObj [("b", VInt 1)]) /\
  get_value example_record "a[].b" = get_value (VObj [("b", VInt 1)]) "b".
Proof.
  apply (take_first_uses_first_element ascii_inflection example_record
           (VObj [("b", VInt 1)]) [VObj [("b", VInt 2)]] "a" "b");
    reflexivity.
Defined.

(** X5: on a mapping that has no key [a], a segment [a[]] or [a[*]] raises
    [TypeError]: the lookup gives [None], which has no first element and
    cannot be iterated. *)
Theorem marker_on_missing_key_raises_type_error (inflection : Inflection)
    (d : list (string * value)) (a rest : string) :
  attribute_chain_exhausted (VDict d) a ->
  assoc a d = None ->
  no_dot a = true ->
  get_value (VDict d) (a ++ "[]") = Raise TypeError /\
  get_value (VDict d) (a ++ "[]." ++ rest) = Raise TypeError /\
  get_value (VDict d) (a ++ "[*]") = Raise TypeError /\
  get_value (VDict d) (a ++ "[*]." ++ rest) = Raise TypeError.
Proof.
  intros Hex Habs Ha.
  assert (Hget : _get (VDict d) a = Normal VNone).
  { rewrite (_get_mapping d a Hex). unfold dict_get. now rewrite Habs. }
  destruct (get_value_take_first _ _ a rest Ha Hget) as [H1 H2].
  destruct (get_value_fan_out _ _ a rest Ha Hget) as [H3 H4].
  rewrite H1, H2, H3, H4. repeat split; reflexivity.
Qed.

Lemma marker_on_missing_key_raises_type_error_witness :
  get_value example_mapping "b[]" = Raise TypeError /\
  get_value example_mapping "b[].c" = Raise TypeError /\
  get_value example_mapping "b[*]" = Raise TypeError /\
  get_value example_mapping "b[*].c" = Raise TypeError.
Proof.
  apply (marker_on_missing_key_raises_type_error ascii_inflection
           [("a", VInt 1)] "b" "c"); try reflexivity.
  repeat split; reflexivity.
Defined.

(** X6: on an object that has no [get] attribute and does not expose a
    field under its exact, snake_case or camelCase name, every path whose
    first segment names that field, with or without a bracket suffix, raises
    [KeyError]. *)
Theorem missing_field_of_object_raises_key_error (inflection : Inflection)
    (obj : value) (seg : string) :
  no_dot seg = true ->
  seg <> "" ->
  attribute_chain_exhausted obj (fst (fst (array_marker seg))) ->
  py_getattr obj "get" = Raise AttributeError ->
  get_value obj seg = Raise KeyError /\
  forall rest, get_value obj (seg ++ "." ++ rest) = Raise KeyError.
Proof.
  intros Hdot Hne Hex Hno_get.
  apply get_value_segment_raises; [assumption | assumption |].
  rewrite (_get_after_attributes _ _ Hex), Hno_get. reflexivity.
Qed.

Lemma missing_field_of_object_raises_key_error_witness :
  get_value example_message "owner[*]" = Raise KeyError /\
  get_value example_message "owner[*].email" = Raise KeyError.
Proof.
  destruct (missing_field_of_object_raises_key_error ascii_inflection
              example_message "owner[*]") as [H1 H2].
  - reflexivity.
  - discriminate.
  - repeat split; reflexivity.
  - reflexivity.
  - split; [exact H1 | exact (H2 "email")].
Defined.

(** X7: one dot at the end of a path is ignored: for a non-empty path that
    does not end in a dot, the path followed by a dot resolves to the same
    result on every object. *)
Theorem trailing_dot_is_ignored (inflection : Inflection)
    (obj : value) (path : string) :
  path <> "" ->
  endswith path "." = false ->
  get_value obj (path ++ ".") = get_value obj path.
Proof.
  intros Hne Hend.
  apply (trailing_dot_upto (S (String.length path))); [lia | assumption..].
Qed.

Lemma trailing_dot_is_ignored_witness :
  get_value example_record "a[*].b." = get_value example_record "a[*].b".
Proof.
  apply (trailing_dot_is_ignored ascii_inflection example_record "a[*].b").
  - discriminate.
  - reflexivity.
Defined.

(** X8: attribute access comes before key lookup, so on a dict the names of
    the dict methods ([items], [keys], [values], [get], ...) give the bound
    method, whatever the dict holds under that key. *)
Theorem dict_method_names_shadow_keys (inflection : Inflection)
    (d : list (string * value)) (name : string) :
  mem_string name dict_methods = true ->
  _get (VDict d) name = Normal (VMethod (VDict d) name) /\
  get_value (VDict d) name = Normal (VMethod (VDict d) name).
Proof.
  intros Hm.
  assert (Hget : _get (VDict d) name = Normal (VMethod (VDict d) name))
    by (unfold _get, py_getattr; rewrite Hm; reflexivity).
  split; [exact Hget|].
  assert (Hplain : plain_name name = true).
  { assert (Hall : forallb plain_name dict_methods = true) by reflexivity.
    rewrite forallb_forall in Hall. apply Hall. now apply mem_string_In. }
  now rewrite (get_value_plain_name _ _ Hplain).
Qed.

Lemma dict_method_names_shadow_keys_witness :
  assoc "items" [("items", VList [VInt 1])] = Some (VList [VInt 1]) /\
  get_value (VDict [("items", VList [VInt 1])]) "items"
    = Normal (VMethod (VDict [("items", VList [VInt 1])]) "items").
Proof.
  split; [reflexivity|].
  apply (dict_method_names_shadow_keys ascii_inflection
           [("items", VList [VInt 1])] "items").
  reflexivity.
Defined.

(** X9: fan-outs nest: with a list [xs] under [a] whose elements each hold a
    list under [b], the path [a[*].b[*]] returns one list per element of
    [xs], in order, and does not flatten them. *)
Theorem nested_fan_out_nests (inflection : Inflection)
    (r : value) (a b : string) (xs : list value) (yss : list (list value)) :
  no_dot a = true ->
  no_dot b = true ->
  _get r a = Normal (VList xs) ->
  Forall2 (fun x ys => _get x b = Normal (VList ys)) xs yss ->
  get_value r (a ++ "[*]." ++ b ++ "[*]") = Normal (VList (map VList yss)).
Proof.
  intros Ha Hb Hget Hall.
  assert (Hinner : Forall2 (fun x y => get_value x (b ++ "[*]") = Normal y)
                     xs (map VList yss)).
  { clear Hget. induction Hall as [|x ys xs yss Hx _ IH]; simpl.
    - constructor.
    - constructor; [|exact IH].
      destruct (get_value_fan_out x _ b "" Hb Hx) as [_ ->]. reflexivity. }
  destruct (get_value_fan_out r _ a (b ++ "[*]") Ha Hget) as [-> _]. simpl.
  now rewrite (mapM_Forall2 _ xs (map VList yss) Hinner).
Qed.

Lemma nested_fan_out_nests_witness :
  get_value
    (VObj [("a", VList [VObj [("b", VList [VInt 1; VInt 2])];
                        VObj [("b", VList [])]])])
    "a[*].b[*]"
  = Normal (VList [VList [VInt 1; VInt 2]; VList []]).
Proof.
  apply (nested_fan_out_nests ascii_inflection _ "a" "b"
           [VObj [("b", VList [VInt 1; VInt 2])]; VObj [("b", VList [])]]
           [[VInt 1; VInt 2]; []]); try reflexivity.
  repeat constructor.
Defined.

(** ** Further properties of the parent resolution (classes.py) *)

Lemma try_except_reraise {A : Type} (r : result A) (e : exn) :
  try_except r [e] (Raise e) = r.
Proof.
  destruct r as [v|e']; simpl; [reflexivity|].
  rewrite orb_false_r. destruct (exn_eqb e' e) eqn:He; [|reflexivity].
  apply exn_eqb_eq in He. now subst.
Qed.

Section WalkProperties.
Context {client : SecurityCenterClient}.

Lemma climb_normal_reaches (gcp_org_id : string) (fuel : nat) :
  forall a t : Asset,
    climb fuel a gcp_org_id = Some (Normal t) ->
    exists k, k <= fuel /\ reaches gcp_org_id k a t.
Proof.
  induction fuel as [|fuel IH]; intros a t; simpl;
    destruct (is_parent a) eqn:Ha; intros H; try discriminate.
  - injection H as <-. exists 0. split; [lia | now apply reaches_here].
  - injection H as <-. exists 0. split; [lia | now apply reaches_here].
  - destruct (get_asset _ gcp_org_id) as [p|e] eqn:Hp; [|discriminate].
    destruct (IH p t H) as (k & Hk & Hreach).
    exists (S k). split; [lia | now apply (reaches_up _ k a p t)].
Qed.

Lemma climb_fails (gcp_org_id : string) (k : nat) (a : Asset) (e : exn) :
  fails gcp_org_id k a e ->
  forall fuel, k < fuel -> climb fuel a gcp_org_id = Some (Raise e).
Proof.
  induction 1 as [a e Ha He | k a p e Ha Hp _ IH]; intros fuel Hlt;
    (destruct fuel as [|fuel]; [lia|]); simpl; rewrite Ha.
  - now rewrite He.
  - rewrite Hp. apply IH. lia.
Qed.

Lemma init_of_info (fuel : nat) (resource gcp_org_id : string) (e : exn) :
  _get_parent_info fuel resource gcp_org_id = Some (Raise e) ->
  FindingParentInfo_init fuel resource gcp_org_id = Some (Raise e).
Proof.
  intros H. unfold FindingParentInfo_init. rewrite H.
  change (info <- Raise e ;; _) with (@Raise FindingParentInfo e).
  now rewrite try_except_reraise.
Qed.

Lemma describe_parent_normal (a : Asset) (d t n : string) (i : value)
    (o : list value) :
  is_parent a = true ->
  describe_parent a = Normal (d, t, n, i, o) ->
  d = resource_display_name (security_center_properties a) /\
  t = resource_type (security_center_properties a) /\
  n = resource_name (security_center_properties a) /\
  ((t = "google.cloud.resourcemanager.Project" /\
    i = dict_get (resource_properties a) "projectNumber" /\
    o = map VStr (resource_owners (security_center_properties a))) \/
   (t = "google.cloud.resourcemanager.Organization" /\
    i = dict_get (resource_properties a) "organizationId" /\
    o = [])).
Proof.
  unfold is_parent, describe_parent. intros Hparent.
  destruct (String.eqb _ "google.cloud.resourcemanager.Project") eqn:Hproj.
  - apply String.eqb_eq in Hproj. simpl. intros H.
    injection H as <- <- <- <- <-. rewrite Hproj. auto 10.
  - destruct (String.eqb _ "google.cloud.resourcemanager.Folder") eqn:Hfold.
    + destruct (_extract_parent_info_folder a) as [r|e] eqn:Hr; simpl;
        [|discriminate].
      now apply folder_extraction_never_returns in Hr.
    + simpl. intros H. injection H as <- <- <- <- <-.
      apply mem_string_In in Hparent. simpl in Hparent.
      apply String.eqb_neq in Hproj, Hfold.
      destruct Hparent as [H|[H|[H|[]]]]; try (symmetry in H; contradiction).
      rewrite <- H. auto 10.
Qed.

End WalkProperties.

(** X10: when the walk from [resource] ends at an organization asset, the
    parent info holds that asset's display name, type and resource name, the
    [organizationId] entry of its resource properties as identifier, and no
    owners, whatever owners the asset records. *)
Theorem organization_parent_info (client : SecurityCenterClient)
    (resource gcp_org_id : string) (start organization : Asset) (k : nat) :
  get_asset resource gcp_org_id = Normal start ->
  reaches gcp_org_id k start organization ->
  resource_type (security_center_properties organization)
    = "google.cloud.resourcemanager.Organization" ->
  forall fuel, k <= fuel ->
    FindingParentInfo_init fuel resource gcp_org_id =
      Some (Normal
              {| displayName :=
                   resource_display_name
                     (security_center_properties organization);
                 type := "google.cloud.resourcemanager.Organization";
                 resourceName :=
                   resource_name (security_center_properties organization);
                 idNum :=
                   dict_get (resource_properties organization) "organizationId";
                 owners := [] |}).
Proof.
  intros Hstart Hreach Htype fuel Hle.
  unfold FindingParentInfo_init, _get_parent_info. rewrite Hstart.
  rewrite (climb_reaches _ _ _ _ Hreach fuel Hle).
  unfold describe_parent. rewrite Htype. reflexivity.
Qed.

Lemma organization_parent_info_witness :
  resource_owners (security_center_properties example_organization)
    = ["user:root@example.com"] /\
  @FindingParentInfo_init (inventory_client example_org_inventory) 1
    "//storage.googleapis.com/logs" "1"
  = Some (Normal
            {| displayName := "example.com";
               type := "google.cloud.resourcemanager.Organization";
               resourceName :=
                 "//cloudresourcemanager.googleapis.com/organizations/1";
               idNum := VStr "1";
               owners := [] |}).
Proof.
  split; [reflexivity|].
  refine (organization_parent_info (inventory_client example_org_inventory)
            _ "1" example_bucket example_organization 1 _ _ _ 1 _).
  - reflexivity.
  - apply (@reaches_up (inventory_client example_org_inventory) "1" 0
             example_bucket example_organization example_organization);
      [reflexivity | reflexivity |].
    apply reaches_here. reflexivity.
  - reflexivity.
  - apply le_n.
Defined.

(** X11: whatever [_get_parent_info] returns describes the first project or
    organization on the chain of parents of the resource: the display name,
    type and resource name are that asset's, and the identifier and owners
    are the project's number and recorded owners, or the organization's
    identifier and no owners.  A folder is never described. *)
Theorem returned_parent_info_describes_the_parent
    (client : SecurityCenterClient) (fuel : nat) (resource gcp_org_id : string)
    (d t n : string) (i : value) (o : list value) :
  _get_parent_info fuel resource gcp_org_id = Some (Normal (d, t, n, i, o)) ->
  exists (start parent : Asset) (k : nat),
    get_asset resource gcp_org_id = Normal start /\
    reaches gcp_org_id k start parent /\
    k <= fuel /\
    d = resource_display_name (security_center_properties parent) /\
    t = resource_type (security_center_properties parent) /\
    n = resource_name (security_center_properties parent) /\
    ((t = "google.cloud.resourcemanager.Project" /\
      i = dict_get (resource_properties parent) "projectNumber" /\
      o = map VStr (resource_owners (security_center_properties parent))) \/
     (t = "google.cloud.resourcemanager.Organization" /\
      i = dict_get (resource_properties parent) "organizationId" /\
      o = [])).
Proof.
  unfold _get_parent_info.
  destruct (get_asset resource gcp_org_id) as [start|e] eqn:Hstart;
    [|discriminate].
  destruct (climb fuel start gcp_org_id) as [[parent|e]|] eqn:Hclimb;
    try discriminate.
  intros H. injection H as H.
  destruct (climb_normal_reaches _ _ _ _ Hclimb) as (k & Hk & Hreach).
  assert (Hparent : is_parent parent = true).
  { clear - Hreach. induction Hreach; assumption. }
  destruct (describe_parent_normal parent d t n i o Hparent H)
    as (Hd & Ht & Hn & Hio).
  exists start, parent, k. auto 10.
Qed.

Lemma returned_parent_info_describes_the_parent_witness :
  exists (start parent : Asset) (k : nat),
    @get_asset (inventory_client example_inventory)
      "//compute.googleapis.com/projects/my-project/zones/us-central1-a/instances/vm-1"
      "1" = Normal start /\
    @reaches (inventory_client example_inventory) "1" k start parent /\
    k <= 3 /\
    "my-project" = resource_display_name (security_center_properties parent) /\
    "google.cloud.resourcemanager.Project"
      = resource_type (security_center_properties parent) /\
    "//cloudresourcemanager.googleapis.com/projects/123123"
      = resource_name (security_center_properties parent) /\
    (("google.cloud.resourcemanager.Project"
        = "google.cloud.resourcemanager.Project" /\
      VInt 123123 = dict_get (resource_properties parent) "projectNumber" /\
      [VStr "user:alice@example.com"; VStr "user:bob@example.com"]
        = map VStr (resource_owners (security_center_properties parent))) \/
     ("google.cloud.resourcemanager.Project"
        = "google.cloud.resourcemanager.Organization" /\
      VInt 123123 = dict_get (resource_properties parent) "organizationId" /\
      [VStr "user:alice@example.com"; VStr "user:bob@example.com"] = [])).
Proof.
  apply (returned_parent_info_describes_the_parent
           (inventory_client example_inventory) 3
           "//compute.googleapis.com/projects/my-project/zones/us-central1-a/instances/vm-1"
           "1").
  reflexivity.
Defined.

(** X12: an exception of a lookup is passed on unchanged, by
    [_get_parent_info] and by the constructor of [FindingParentInfo]: the
    exception of the first lookup (a [ValueError] for an unknown resource),
    and the exception of a parent lookup after any number of steps. *)
Theorem lookup_errors_propagate (client : SecurityCenterClient)
    (resource gcp_org_id : string) (e : exn) :
  (get_asset resource gcp_org_id = Raise e ->
   forall fuel,
     _get_parent_info fuel resource gcp_org_id = Some (Raise e) /\
     FindingParentInfo_init fuel resource gcp_org_id = Some (Raise e)) /\
  (forall (start : Asset) (k : nat),
     get_asset resource gcp_org_id = Normal start ->
     fails gcp_org_id k start e ->
     forall fuel, k < fuel ->
       _get_parent_info fuel resource gcp_org_id = Some (Raise e) /\
       FindingParentInfo_init fuel resource gcp_org_id = Some (Raise e)).
Proof.
  split.
  - intros He fuel.
    assert (H : _get_parent_info fuel resource gcp_org_id = Some (Raise e))
      by (unfold _get_parent_info; now rewrite He).
    split; [exact H | now apply init_of_info].
  - intros start k Hstart Hfails fuel Hlt.
    assert (H : _get_parent_info fuel resource gcp_org_id = Some (Raise e)).
    { unfold _get_parent_info. rewrite Hstart.
      now rewrite (climb_fails _ _ _ _ Hfails fuel Hlt). }
    split; [exact H | now apply init_of_info].
Qed.

Lemma lookup_errors_propagate_witness :
  @FindingParentInfo_init (inventory_client example_org_inventory) 0
    "//storage.googleapis.com/unknown" "1" = Some (Raise ValueError) /\
  @FindingParentInfo_init (inventory_client example_org_inventory) 1
    "//storage.googleapis.com/orphan" "1" = Some (Raise ValueError).
Proof.
  split.
  - apply (proj1 (lookup_errors_propagate
                    (inventory_client example_org_inventory)
                    "//storage.googleapis.com/unknown" "1" ValueError)).
    reflexivity.
  - refine (proj2 (proj2 (lookup_errors_propagate
                            (inventory_client example_org_inventory)
                            "//storage.googleapis.com/orphan" "1" ValueError)
                     example_orphan 0 _ _ 1 _)).
    + reflexivity.
    + apply (@fails_here (inventory_client example_org_inventory) "1");
        reflexivity.
    + apply le_n.
Defined.

(** ** Properties of the helpers of [FindingInfo] (classes.py) *)

Lemma prefix_app (sub b : string) : prefix sub (sub ++ b) = true.
Proof.
  induction sub as [|c sub IH]; simpl; [now destruct b|].
  destruct (ascii_dec c c); [exact IH | contradiction].
Qed.

Lemma contains_app (sub a b : string) : contains sub (a ++ sub ++ b) = true.
Proof.
  assert (Hhere : forall s, prefix sub s = true -> contains sub s = true)
    by (intros [|c s] H;
        [ change (contains sub "") with (prefix sub "" || false)
        | change (contains sub (String c s))
            with (prefix sub (String c s) || contains sub s) ];
        now rewrite H).
  induction a as [|c a IH].
  - change ("" ++ sub ++ b) with (sub ++ b). apply Hhere. apply prefix_app.
  - change (contains sub (String c a ++ sub ++ b))
      with (prefix sub (String c (a ++ sub ++ b))
            || contains sub (a ++ sub ++ b)).
    rewrite IH. apply orb_true_r.
Qed.

Lemma split_not_nil (sep : ascii) (s : string) : split sep s <> [].
Proof.
  destruct s as [|c s]; simpl; [discriminate|].
  destruct (Ascii.eqb c sep); [discriminate|].
  destruct (split sep s); discriminate.
Qed.

Lemma split_no_slash (a : string) : no_slash a = true -> split "/" a = [a].
Proof.
  induction a as [|c a IH]; simpl; [reflexivity|].
  intros H. apply andb_prop in H as [Hc Ha]. apply negb_true_iff in Hc.
  now rewrite Hc, (IH Ha).
Qed.

Lemma split_at_slash (a rest : string) :
  no_slash a = true -> split "/" (a ++ String "/" rest) = a :: split "/" rest.
Proof.
  induction a as [|c a IH]; simpl; [reflexivity|].
  intros H. apply andb_prop in H as [Hc Ha]. apply negb_true_iff in Hc.
  now rewrite Hc, (IH Ha).
Qed.

Lemma source_parent_of (org id rest : string) :
  no_slash org = true ->
  no_slash id = true ->
  join "/" (firstn 2 (split "/" (org ++ "/" ++ id ++ "/" ++ rest)))
    = org ++ "/" ++ id.
Proof.
  intros Horg Hid.
  change (org ++ "/" ++ id ++ "/" ++ rest)
    with (org ++ String "/" (id ++ String "/" rest)).
  rewrite (split_at_slash org _ Horg), (split_at_slash id _ Hid).
  reflexivity.
Qed.

Lemma first_display_name_some (sources : list Source) (fs d : string) :
  first_display_name sources fs = Some d ->
  exists s, In s sources /\ source_name s = fs /\ display_name s = d.
Proof.
  induction sources as [|s tl IH]; simpl; [discriminate|].
  destruct (String.eqb (source_name s) fs) eqn:Hs.
  - intros H. injection H as <-. apply String.eqb_eq in Hs. exists s. auto.
  - intros H. destruct (IH H) as (s' & Hin & Hn & Hd). exists s'. auto.
Qed.

Lemma first_display_name_none (sources : list Source) (fs : string) :
  first_display_name sources fs = None <->
  forall s, In s sources -> source_name s <> fs.
Proof.
  induction sources as [|s tl IH]; simpl.
  - split; [intros _ s [] | reflexivity].
  - destruct (String.eqb (source_name s) fs) eqn:Hs.
    + apply String.eqb_eq in Hs. split; [discriminate|].
      intros H. exfalso. apply (H s); auto.
    + apply String.eqb_neq in Hs. rewrite IH. split.
      * intros H s' [<- | Hin]; auto.
      * intros H s' Hin. apply H. auto.
Qed.

(** X13: [_get_asset_security_marks] never raises [ValueError]: for a
    resource name that contains [/organizations/] it returns [None] without
    regard to the marks lookup, and otherwise it returns what the lookup
    returns, [None] when the lookup raises [ValueError], and lets any other
    exception through. *)
Theorem asset_security_marks_swallow_value_error (lookups : SccLookups)
    (resource_name gcp_org_id : string) :
  _get_asset_security_marks resource_name gcp_org_id <> Raise ValueError /\
  (forall a b, resource_name = a ++ "/organizations/" ++ b ->
     _get_asset_security_marks resource_name gcp_org_id = Normal VNone) /\
  (contains "/organizations/" resource_name = false ->
   (forall marks, get_security_marks resource_name gcp_org_id = Normal marks ->
      _get_asset_security_marks resource_name gcp_org_id = Normal marks) /\
   (get_security_marks resource_name gcp_org_id = Raise ValueError ->
      _get_asset_security_marks resource_name gcp_org_id = Normal VNone) /\
   (forall e, e <> ValueError ->
      get_security_marks resource_name gcp_org_id = Raise e ->
      _get_asset_security_marks resource_name gcp_org_id = Raise e)).
Proof.
  unfold _get_asset_security_marks. repeat split.
  - destruct (contains "/organizations/" resource_name); simpl; [discriminate|].
    intros H. apply try_except_raise in H as [[_ H] | H]; discriminate.
  - intros a b ->. now rewrite contains_app.
  - intros marks Hm. now rewrite H, Hm.
  - intros He. now rewrite H, He.
  - intros e Hne He. rewrite H, He. simpl.
    destruct (exn_eqb e ValueError) eqn:Heq; [|reflexivity].
    apply exn_eqb_eq in Heq. contradiction.
Qed.

Lemma asset_security_marks_swallow_value_error_witness :
  @_get_asset_security_marks example_lookups
    "//cloudresourcemanager.googleapis.com/organizations/1" "1" = Normal VNone /\
  @_get_asset_security_marks example_lookups
    "//storage.googleapis.com/logs" "1"
    = Normal (VDict [("reviewed", VStr "true")]) /\
  @_get_asset_security_marks example_lookups
    "//storage.googleapis.com/deleted" "1" = Normal VNone.
Proof.
  split; [|split].
  - apply (proj1 (proj2 (asset_security_marks_swallow_value_error
                           example_lookups _ "1"))
             "//cloudresourcemanager.googleapis.com" "1").
    reflexivity.
  - apply (proj2 (proj2 (asset_security_marks_swallow_value_error
                           example_lookups "//storage.googleapis.com/logs" "1"))
             eq_refl).
    reflexivity.
  - apply (proj2 (proj2 (asset_security_marks_swallow_value_error
                           example_lookups "//storage.googleapis.com/deleted"
                           "1"))
             eq_refl).
    reflexivity.
Defined.

(** X14: for a finding source [org/id/rest] the sources are listed under
    its first two components [org/id], and the result is the display name of
    the first listed source of exactly that name: a returned name belongs to
    such a source, and [None] is returned exactly when no listed source has
    that name. *)
Theorem finding_source_is_sought_under_its_parent (lookups : SccLookups)
    (org id rest : string) (sources : list Source) :
  no_slash org = true ->
  no_slash id = true ->
  get_sources (org ++ "/" ++ id) = Normal sources ->
  (forall d,
     _get_finding_source (org ++ "/" ++ id ++ "/" ++ rest) = Normal (Some d) ->
     exists s, In s sources /\
               source_name s = org ++ "/" ++ id ++ "/" ++ rest /\
               display_name s = d) /\
  (_get_finding_source (org ++ "/" ++ id ++ "/" ++ rest) = Normal None <->
   forall s, In s sources ->
             source_name s <> org ++ "/" ++ id ++ "/" ++ rest).
Proof.
  intros Horg Hid Hsources. unfold _get_finding_source.
  rewrite (source_parent_of org id rest Horg Hid), Hsources. simpl. split.
  - intros d H. injection H as H. now apply first_display_name_some.
  - rewrite <- first_display_name_none. split; [|now intros ->].
    intros H. now injection H.
Qed.

Lemma finding_source_is_sought_under_its_parent_witness :
  @_get_finding_source example_lookups "organizations/1/sources/9"
    = Normal None.
Proof.
  apply (proj2 (finding_source_is_sought_under_its_parent example_lookups
                  "organizations" "1" "sources/9" example_sources
                  eq_refl eq_refl eq_refl)).
  intros s [<- | [<- | []]]; discriminate.
Defined.

(** ** Properties of the other functions of scc.py *)

Lemma string_app_inv_head (p a b : string) : p ++ a = p ++ b -> a = b.
Proof.
  induction p as [|c p IH]; simpl; [auto|].
  intros H. injection H as H. auto.
Qed.

(** X15: [set_security_mark] sends nothing and raises [TypeError] when
    [marks] is not a dict.  For a dict it sends one request, for
    [scc_name/securityMarks], whose update mask has one path
    [marks.<key>] for each key of [marks] and no other path, without
    repetition when the keys are distinct. *)
Theorem update_mask_covers_the_marks (marks_client : SecurityMarksClient)
    (scc_name : string) :
  (forall marks, (forall d, marks <> VDict d) ->
     set_security_mark scc_name marks = ([], Raise TypeError)) /\
  (forall d, exists paths,
     fst (set_security_mark scc_name (VDict d))
       = [UpdateSecurityMarks (scc_name ++ "/securityMarks") d paths] /\
     List.length paths = List.length d /\
     (forall p, In p paths <-> exists k v, In (k, v) d /\ p = "marks." ++ k) /\
     (NoDup (map fst d) -> NoDup paths)).
Proof.
  split.
  - intros marks Hnot. destruct marks; try reflexivity.
    exfalso. now apply (Hnot entries).
  - intros d. exists (map (fun kv => "marks." ++ fst kv) d).
    split; [reflexivity|]. split; [apply length_map|]. split.
    + intros p. rewrite in_map_iff. split.
      * intros ([k v] & <- & Hin). now exists k, v.
      * intros (k & v & Hin & ->). now exists (k, v).
    + intros Hnd. induction d as [|[k v] d IH]; simpl; [constructor|].
      simpl in Hnd. inversion Hnd as [|? ? Hk Hd]; subst.
      constructor; [|now apply IH].
      rewrite in_map_iff. intros ([k' v'] & Heq & Hin).
      apply (string_app_inv_head "marks.") in Heq. simpl in Heq. subst k'.
      apply Hk. apply in_map_iff. now exists (k, v').
Qed.

Lemma update_mask_covers_the_marks_witness :
  @set_security_mark accepting_client "organizations/1/assets/2" (VStr "reason")
    = ([], Raise TypeError) /\
  @set_security_mark accepting_client "organizations/1/assets/2"
    (VDict [("reason", VStr "intentional"); ("allow", VStr "true")])
    = ([UpdateSecurityMarks "organizations/1/assets/2/securityMarks"
          [("reason", VStr "intentional"); ("allow", VStr "true")]
          ["marks.reason"; "marks.allow"]],
       Normal tt).
Proof.
  split.
  - apply (proj1 (update_mask_covers_the_marks accepting_client
                    "organizations/1/assets/2")).
    discriminate.
  - reflexivity.
Defined.

(** X16: [parse_notification] raises [TypeError] for anything that is neither
    a string nor a dict, and never raises [ParseError]: a [ParseError] of the
    decoder comes out as [TypeError] (given that [json.dumps] raises none). *)
Theorem parse_notification_never_raises_parse_error (codec : NotificationCodec)
    (notification : value) (ignore_unknown_fields : bool) :
  (forall d, json_dumps d <> Raise ParseError) ->
  parse_notification notification ignore_unknown_fields <> Raise ParseError /\
  ((forall d, notification <> VDict d) ->
   (forall s, notification <> VStr s) ->
   parse_notification notification ignore_unknown_fields = Raise TypeError) /\
  (forall text,
     notification = VStr text ->
     from_json text ignore_unknown_fields = Raise ParseError ->
     parse_notification notification ignore_unknown_fields = Raise TypeError).
Proof.
  intros Hdumps. unfold parse_notification. repeat split.
  - destruct (match notification with
              | VDict d => json_dumps d
              | VStr s => Normal s
              | _ => Raise TypeError
              end) as [text|e] eqn:Htext; simpl.
    + intros H. apply try_except_raise in H as [[_ H] | H];
        [simpl in H | ]; discriminate.
    + intros H. injection H as ->.
      destruct notification; try discriminate. now apply (Hdumps entries).
  - intros Hd Hs. destruct notification; try reflexivity.
    + exfalso. now apply (Hs s).
    + exfalso. now apply (Hd entries).
  - intros text -> Hparse. simpl. now rewrite Hparse.
Qed.

Lemma parse_notification_never_raises_parse_error_witness :
  @parse_notification example_codec (VStr "{") false = Raise TypeError /\
  @parse_notification example_codec (VInt 7) false = Raise TypeError.
Proof.
  assert (Hdumps : forall d, @json_dumps example_codec d <> Raise ParseError)
    by (intros [|kv d]; discriminate).
  destruct (parse_notification_never_raises_parse_error example_codec
              (VStr "{") false Hdumps) as (_ & _ & Hstr).
  destruct (parse_notification_never_raises_parse_error example_codec
              (VInt 7) false Hdumps) as (_ & Hother & _).
  split.
  - apply (Hstr "{"); reflexivity.
  - apply Hother; discriminate.
Defined.


